(** * Multi-party document signing: the provider's core, verified

    A shallow embedding of the signing core of the application:

    - [utils/jsonUtils.ts]: [canonicalizeJSON];
    - [provider/DocumentProvider.tsx]: [hashDocumentContent],
      [createDocumentMessage], [createDocument], [signDocumentDirect],
      [signDocument], [getSignatureStatus], [verifySignature],
      [verifyDocument];
    - [types/document.ts]: the records these functions work on.

    JavaScript strings are sequences of UTF-16 code units, thrown errors are
    carried by their message, React state is passed explicitly, and what the
    provider takes from outside (the [ethers] library, [Date], IEEE numbers)
    is gathered in the class [Platform]. *)

From Stdlib Require Import String Ascii SpecFloat.
From Bignums Require Import BigZ.
From stdpp Require Import base list sorting numbers.

Set Default Proof Using "Type".
Set Warnings "-register-all".

(** ** JavaScript strings *)

(** A string is the list of its UTF-16 code units. *)
Abbreviation jsstring := (list N).

(** An ASCII literal of the source, as a JavaScript string. *)
Definition js (s : string) : jsstring :=
  map N_of_ascii (list_ascii_of_string s).
Arguments js s%_string.

(** The double quote, [U+0022]. *)
Definition dquote : jsstring := [34%N].

Declare Scope js_scope.
Delimit Scope js_scope with js.

(** [a === b] on two strings. *)
Definition strictEq (a b : jsstring) : bool := bool_decide (a = b).
Infix "===" := strictEq (at level 70, no associativity) : js_scope.

(** [a === b] where [b] may be [undefined] (an optional field): a string is
    never strictly equal to [undefined]. *)
Definition strictEqOpt (a : jsstring) (b : option jsstring) : bool :=
  bool_decide (Some a = b).
Infix "===?" := strictEqOpt (at level 70, no associativity) : js_scope.

(** [a === b] where both sides may be [undefined]. *)
Definition strictEqOpt2 (a b : option jsstring) : bool := bool_decide (a = b).

Open Scope js_scope.

(** [xs.join(sep)] *)
Fixpoint join (sep : jsstring) (xs : list jsstring) : jsstring :=
  match xs with
  | [] => []
  | x :: rest =>
      match rest with
      | [] => x
      | _ :: _ => x ++ sep ++ join sep rest
      end
  end.

(** The order of [<] on strings, which [Array.prototype.sort] uses when it is
    given no comparator: lexicographic on code units, a proper prefix first.
    [codeUnitLe a b] is [!(b < a)]. *)
Fixpoint codeUnitLe (a b : jsstring) : bool :=
  match a, b with
  | [], _ => true
  | _ :: _, [] => false
  | x :: a', y :: b' =>
      if (x <? y)%N then true
      else if (y <? x)%N then false
      else codeUnitLe a' b'
  end.

Definition codeUnitOrder : relation jsstring := λ a b, codeUnitLe a b = true.

Global Instance codeUnitOrder_dec a b : Decision (codeUnitOrder a b).
Proof. unfold codeUnitOrder. apply _. Defined.

(** [keys.sort()] *)
Definition sort (keys : list jsstring) : list jsstring :=
  merge_sort codeUnitOrder keys.

(** *** Code points

    The code points a string denotes: a high surrogate followed by a low one
    is one supplementary code point, every other code unit stands for itself. *)

Definition isHighSurrogate (c : N) : bool := ((55296 <=? c) && (c <=? 56319))%N.
Definition isLowSurrogate (c : N) : bool := ((56320 <=? c) && (c <=? 57343))%N.

Fixpoint codePoints (s : jsstring) : list N :=
  match s with
  | [] => []
  | c :: rest =>
      if isHighSurrogate c then
        match rest with
        | d :: rest' =>
            if isLowSurrogate d
            then (65536 + (c - 55296) * 1024 + (d - 56320))%N :: codePoints rest'
            else c :: codePoints rest
        | [] => [c]
        end
      else c :: codePoints rest
  end.

(** Lexicographic order on code point sequences. *)
Definition codePointLe (a b : jsstring) : bool :=
  codeUnitLe (codePoints a) (codePoints b).

(** *** [JSON.stringify] on a string (QuoteJSONString) *)

Definition hexDigit (d : N) : N := (if d <? 10 then 48 + d else 87 + d)%N.

(** [\uXXXX] with lower-case hexadecimal digits *)
Definition unicodeEscape (c : N) : jsstring :=
  js "\u" ++ [hexDigit (c / 4096 mod 16); hexDigit (c / 256 mod 16);
              hexDigit (c / 16 mod 16); hexDigit (c mod 16)]%N.

Definition escapeCodeUnit (c : N) : jsstring :=
  if (c =? 8)%N then js "\b"
  else if (c =? 9)%N then js "\t"
  else if (c =? 10)%N then js "\n"
  else if (c =? 12)%N then js "\f"
  else if (c =? 13)%N then js "\r"
  else if (c =? 34)%N then js "\" ++ dquote
  else if (c =? 92)%N then js "\\"
  else if (c <? 32)%N then unicodeEscape c
  else [c].

Fixpoint quoteJSONChars (s : jsstring) : jsstring :=
  match s with
  | [] => []
  | c :: rest =>
      if isHighSurrogate c then
        match rest with
        | d :: rest' =>
            if isLowSurrogate d then c :: d :: quoteJSONChars rest'
            else unicodeEscape c ++ quoteJSONChars rest
        | [] => unicodeEscape c
        end
      else if isLowSurrogate c then unicodeEscape c ++ quoteJSONChars rest
      else escapeCodeUnit c ++ quoteJSONChars rest
  end.

Definition quoteJSONString (s : jsstring) : jsstring :=
  dquote ++ quoteJSONChars s ++ dquote.

(** ** Thrown errors *)

(** The outcome of a call that may throw; an [Error] is carried by its
    message. *)
Inductive result (A : Type) : Type :=
  | Return (a : A)
  | Throw (message : jsstring).
Arguments Return {A} a.
Arguments Throw {A} message.

Definition bind {A B} (r : result A) (k : A → result B) : result B :=
  match r with
  | Return a => k a
  | Throw m => Throw m
  end.

(** ** What the provider takes from outside *)

(** The numbers of a JSON value (IEEE doubles). *)
Class Numbers := { number : Type }.

Class Platform `{Numbers} := {
  (** [JSON.stringify(n)] on a number *)
  numberToJSON : number → jsstring;
  (** [s.toLowerCase()] *)
  toLowerCase : jsstring → jsstring;
  (** [d.toISOString()], the date given by its time value *)
  toISOString : Z → jsstring;
  (** [ethers.keccak256(ethers.toUtf8Bytes(s))]; [toUtf8Bytes] throws on a
      high surrogate that no low surrogate follows *)
  keccak256Utf8 : jsstring → result jsstring;
  (** [ethers.hashMessage(message)] *)
  hashMessage : jsstring → result jsstring;
  (** [ethers.recoverAddress(digest, signature)] *)
  recoverAddress : jsstring → jsstring → result jsstring;
  (** [Math.round((signed / total) * 100)] on two lengths, [total > 0] *)
  roundPercent : nat → nat → Z;
}.

(** ** JSON values and [canonicalizeJSON] ([utils/jsonUtils.ts]) *)

Section JSON.
Context `{Platform}.

(** The values [canonicalizeJSON] tells apart: [null], [undefined], the
    primitives with a JSON form, arrays, and objects. An object is the list of
    its own enumerable properties in the order [Object.keys] gives them; its
    keys are distinct ([distinctKeys]). Values are finite trees. *)
Inductive JSValue : Type :=
  | JNull
  | JUndefined
  | JBool (b : bool)
  | JNumber (n : number)
  | JString (s : jsstring)
  | JArray (items : list JSValue)
  | JObject (props : list (jsstring * JSValue)).

(** [Object.keys(obj)] *)
Definition keys (props : list (jsstring * JSValue)) : list jsstring :=
  map fst props.

(** [obj[key]] *)
Fixpoint get (props : list (jsstring * JSValue)) (key : jsstring) : JSValue :=
  match props with
  | [] => JUndefined
  | (k, v) :: rest => if k === key then v else get rest key
  end.

(** [JSON.stringify(b)] on a boolean *)
Definition boolToJSON (b : bool) : jsstring :=
  if b then js "true" else js "false".

(** [canonicalizeJSON(obj)]. In the object case the property is read and
    canonicalized key by key, [canonicalizeJSON(obj[key])], the inner loop
    being [get] fused with the recursive call. *)
Fixpoint canonicalizeJSON (obj : JSValue) : jsstring :=
  match obj with
  | JNull => js "null"
  | JUndefined => js "undefined"
  | JBool b => boolToJSON b
  | JNumber n => numberToJSON n
  | JString s => quoteJSONString s
  | JArray arr =>
      let items := map canonicalizeJSON arr in
      js "[" ++ join (js ",") items ++ js "]"
  | JObject props =>
      let sortedKeys := sort (keys props) in
      let pairs :=
        map (λ key,
               let value :=
                 (fix at_key (ps : list (jsstring * JSValue)) : jsstring :=
                    match ps with
                    | [] => js "undefined"
                    | (k, v) :: rest =>
                        if k === key then canonicalizeJSON v else at_key rest
                    end) props in
               dquote ++ key ++ dquote ++ js ":" ++ value)
            sortedKeys in
      js "{" ++ join (js ",") pairs ++ js "}"
  end.

(** Every object of the value has distinct keys, as JavaScript objects do. *)
Fixpoint distinctKeys (v : JSValue) : bool :=
  match v with
  | JArray items => forallb distinctKeys items
  | JObject props =>
      bool_decide (NoDup (keys props))
      && (fix all (ps : list (jsstring * JSValue)) : bool :=
            match ps with
            | [] => true
            | (_, x) :: rest => distinctKeys x && all rest
            end) props
  | _ => true
  end.

(** [permuteKeys]: [keyPermuted v w] when [w] is [v] with the properties of
    some of its objects, at any depth, enumerated in another order. *)
Inductive keyPermuted : JSValue → JSValue → Prop :=
  | kp_same v : keyPermuted v v
  | kp_array xs ys :
      Forall2 keyPermuted xs ys → keyPermuted (JArray xs) (JArray ys)
  | kp_object ps qs qs' :
      Forall2 (λ p q, p.1 = q.1 ∧ keyPermuted p.2 q.2) ps qs →
      qs ≡ₚ qs' →
      keyPermuted (JObject ps) (JObject qs').

End JSON.

(** ** The records of [types/document.ts] *)

(** ['text' | 'json' | 'pdf'] *)
Inductive DocumentContentType : Type := text | json | pdf.

(** ['draft' | 'pending' | 'partial' | 'complete' | 'cancelled'] *)
Inductive DocumentStatus : Type := draft | pending | partial | complete | cancelled.

Module PDFData.
Record t : Type := {
  base64 : jsstring;
  filename : jsstring;
  mimeType : jsstring;
  size : N;
}.
End PDFData.

(** [string | object | PDFData]: the payload of a content, tagged by its
    kind. *)
Inductive ContentData `{Numbers} : Type :=
  | TextData (s : jsstring)
  | JsonData (v : JSValue)
  | PdfData (p : PDFData.t).

Module DocumentContent.
Record t `{Numbers} : Type := {
  data : ContentData;
  hash : jsstring;
}.

(** [content.type]. [createDocument], which builds every content, stores
    with a payload the [type] of its kind, so the field is read off the
    payload's tag. *)
Definition type `{Numbers} (content : t) : DocumentContentType :=
  match data content with
  | TextData _ => text
  | JsonData _ => json
  | PdfData _ => pdf
  end.
End DocumentContent.

Module DocumentUser.
Record t : Type := {
  userId : jsstring;
  username : jsstring;
  email : option jsstring;
  walletAddress : jsstring;
}.
End DocumentUser.

Module DocumentSigner.
Record t : Type := {
  userId : jsstring;
  username : jsstring;
  walletAddress : option jsstring;
  required : bool;
  hasSigned : bool;
}.
End DocumentSigner.

(** Dates are given by their time value, in milliseconds. *)
Module DocumentSignature.
Record t : Type := {
  signer : DocumentUser.t;
  signature : jsstring;
  signedAt : Z;
  documentHash : jsstring;
  verified : bool;
  verifiedAt : option Z;
}.
End DocumentSignature.

Module Document.
Record t `{Numbers} : Type := {
  id : jsstring;
  content : DocumentContent.t;
  createdBy : DocumentUser.t;
  createdAt : Z;
  status : DocumentStatus;
  requiredSigners : list DocumentSigner.t;
  signatures : list DocumentSignature.t;
  updatedAt : Z;
}.
End Document.

Module SignatureStatus.
Record t : Type := {
  total : nat;
  signed : nat;
  percentage : Z;
  pending : list jsstring;
  complete : bool;
  missingSigners : list DocumentSigner.t;
}.
End SignatureStatus.

Module CreateDocumentParams.
(** [contentType] and [contentData] after [JSON.parse] and [readPDFFile]
    have read them: the payload, tagged by its kind. *)
Record t `{Numbers} : Type := {
  contentData : ContentData;
  requiredSigners : list jsstring;
  signImmediately : bool;
}.
End CreateDocumentParams.

Module DocumentVerification.
Record t : Type := {
  valid : bool;
  signaturesValid : bool;
  contentHashValid : bool;
  allSignersPresent : bool;
  errors : list jsstring;
  verifiedAt : Z;
}.
End DocumentVerification.

Module SignatureVerification.
Record t : Type := {
  valid : bool;
  recoveredAddress : jsstring;
  expectedAddress : jsstring;
  addressMatch : bool;
  hashMatch : bool;
  error : option jsstring;
}.
End SignatureVerification.

(** The provider's React state. *)
Module DocumentState.
Record t `{Numbers} : Type := {
  documents : list Document.t;
  currentDocument : option Document.t;
  isLoading : bool;
  isSigning : bool;
  error : option jsstring;
}.
End DocumentState.

(** ** The provider ([provider/DocumentProvider.tsx]) *)

Section Provider.
Context `{Platform}.

Import DocumentContent Document.

(** The line feed, [U+000A]. *)
Definition newline : jsstring := [10%N].

(** A [DocumentContentType] inside a template literal. *)
Definition typeName (ty : DocumentContentType) : jsstring :=
  match ty with
  | text => js "text"
  | json => js "json"
  | pdf => js "pdf"
  end.

(** *** The messages of the errors the provider throws *)

Definition NotAuthenticated : jsstring :=
  js "User not authenticated or wallet not connected".
Definition DocumentNotFound : jsstring := js "Document not found".
Definition AlreadySigned : jsstring :=
  js "You have already signed this document".
Definition NotARequiredSigner : jsstring :=
  js "You are not a required signer for this document".
Definition SigningFailed : jsstring := js "Signature failed".

(** *** [hashDocumentContent]

    The [switch] on [content.type] is the match on the payload's tag; its
    [default] branch is not reached. *)
Definition canonicalForm (content : DocumentContent.t) : jsstring :=
  match content.(data) with
  | TextData s => s
  | JsonData v => canonicalizeJSON v
  | PdfData pdfData => pdfData.(PDFData.base64)
  end.

Definition hashDocumentContent (content : DocumentContent.t) : result jsstring :=
  keccak256Utf8 (canonicalForm content).

(** *** [createDocumentMessage] *)
Definition createDocumentMessage (doc : Document.t) : jsstring :=
  join newline [
    js "=== VIA DOCUMENT SIGNATURE ===";
    js "";
    js "Document ID: " ++ doc.(id);
    js "Content Type: " ++ typeName (type doc.(content));
    js "Content Hash: " ++ doc.(content).(hash);
    js "Created: " ++ toISOString doc.(createdAt);
    js "Required Signers: "
      ++ join (js ", ") (map DocumentSigner.userId doc.(requiredSigners));
    js "";
    js "By signing this message, I confirm that I have reviewed and approve this document.";
    js "";
    js "=== END SIGNATURE ==="
  ].

(** *** [getDocument] *)
Definition getDocument (documents : list Document.t) (documentId : jsstring)
    : option Document.t :=
  find (λ doc, doc.(id) === documentId) documents.

(** *** Recording a signature

    The updater [signDocumentDirect] and [signDocument] hand to
    [setDocuments]; the two are the same text, up to the name of the
    document's id. *)

(** [{ ...s, hasSigned: true }] *)
Definition markSigned (s : DocumentSigner.t) : DocumentSigner.t :=
  {| DocumentSigner.userId := s.(DocumentSigner.userId);
     DocumentSigner.username := s.(DocumentSigner.username);
     DocumentSigner.walletAddress := s.(DocumentSigner.walletAddress);
     DocumentSigner.required := s.(DocumentSigner.required);
     DocumentSigner.hasSigned := true |}.

Definition hasSignedNow (currentUser : DocumentUser.t) (s : DocumentSigner.t)
    : bool :=
  (s.(DocumentSigner.userId) === currentUser.(DocumentUser.userId))
  || (s.(DocumentSigner.userId) ===? currentUser.(DocumentUser.email))
  || (s.(DocumentSigner.username) ===? currentUser.(DocumentUser.email)).

Definition recordSignature (documentId : jsstring)
    (currentUser : DocumentUser.t) (docSignature : DocumentSignature.t)
    (now : Z) (d : Document.t) : Document.t :=
  if negb (d.(id) === documentId) then d
  else
    let newSignatures := d.(signatures) ++ [docSignature] in
    let newRequiredSigners :=
      map (λ s, if hasSignedNow currentUser s then markSigned s else s)
          d.(requiredSigners) in
    let allSigned := forallb DocumentSigner.hasSigned newRequiredSigners in
    let newStatus :=
      if allSigned then complete
      else if (0 <? List.length newSignatures)%nat then partial
      else d.(status) in
    {| id := d.(id);
       content := d.(content);
       createdBy := d.(createdBy);
       createdAt := d.(createdAt);
       status := newStatus;
       requiredSigners := newRequiredSigners;
       signatures := newSignatures;
       updatedAt := now |}.

(** [!signature]: [signMessage] gave [null] or the empty string. *)
Definition falsy (signature : option jsstring) : bool :=
  match signature with
  | None | Some [] => true
  | Some (_ :: _) => false
  end.

(** State setters. *)
Definition setDocuments (f : list Document.t → list Document.t)
    (st : DocumentState.t) : DocumentState.t :=
  {| DocumentState.documents := f st.(DocumentState.documents);
     DocumentState.currentDocument := st.(DocumentState.currentDocument);
     DocumentState.isLoading := st.(DocumentState.isLoading);
     DocumentState.isSigning := st.(DocumentState.isSigning);
     DocumentState.error := st.(DocumentState.error) |}.

Definition setIsLoading (b : bool) (st : DocumentState.t) : DocumentState.t :=
  {| DocumentState.documents := st.(DocumentState.documents);
     DocumentState.currentDocument := st.(DocumentState.currentDocument);
     DocumentState.isLoading := b;
     DocumentState.isSigning := st.(DocumentState.isSigning);
     DocumentState.error := st.(DocumentState.error) |}.

Definition setIsSigning (b : bool) (st : DocumentState.t) : DocumentState.t :=
  {| DocumentState.documents := st.(DocumentState.documents);
     DocumentState.currentDocument := st.(DocumentState.currentDocument);
     DocumentState.isLoading := st.(DocumentState.isLoading);
     DocumentState.isSigning := b;
     DocumentState.error := st.(DocumentState.error) |}.

Definition setError (e : option jsstring) (st : DocumentState.t)
    : DocumentState.t :=
  {| DocumentState.documents := st.(DocumentState.documents);
     DocumentState.currentDocument := st.(DocumentState.currentDocument);
     DocumentState.isLoading := st.(DocumentState.isLoading);
     DocumentState.isSigning := st.(DocumentState.isSigning);
     DocumentState.error := e |}.

Definition clearError : DocumentState.t → DocumentState.t := setError None.

(** *** [signDocumentDirect] and [signDocument]

    [currentUser] is what [getCurrentUser()] returns ([null] as [None]),
    [signMessage] the wallet's answer to a message ([null] as [None]; the
    transaction provider catches the wallet's errors and returns [null]),
    [signedAt] and [now] the two readings of [new Date()]. A call returns the
    state it leaves and what it returned or threw. *)

(** The [try] block the two functions share: [doc] is the document whose
    message is signed, [documentId] the id the updater looks for. *)
Definition signingAttempt (currentUser : DocumentUser.t)
    (signMessage : jsstring → option jsstring) (signedAt now : Z)
    (doc : Document.t) (documentId : jsstring) (st : DocumentState.t)
    : DocumentState.t * result unit :=
  let st := clearError (setIsSigning true st) in
  let message := createDocumentMessage doc in
  let signature := signMessage message in
  if falsy signature then
    (* catch: setError(errorMsg); throw err; finally: setIsSigning(false) *)
    (setIsSigning false (setError (Some SigningFailed) st), Throw SigningFailed)
  else
    let docSignature :=
      {| DocumentSignature.signer := currentUser;
         DocumentSignature.signature := default [] signature;
         DocumentSignature.signedAt := signedAt;
         DocumentSignature.documentHash := doc.(content).(hash);
         DocumentSignature.verified := false;
         DocumentSignature.verifiedAt := None |} in
    let st :=
      setDocuments
        (map (recordSignature documentId currentUser docSignature now)) st in
    (setIsSigning false st, Return ()).

(** The two checks before the [try] block, [const alreadySigned] and
    [const isRequiredSigner]; the second differs between the two functions. *)
Definition alreadySigned (currentUser : DocumentUser.t) (doc : Document.t)
    : bool :=
  existsb (λ sig, sig.(DocumentSignature.signer).(DocumentUser.userId)
                  === currentUser.(DocumentUser.userId))
          doc.(signatures).

(** in [signDocumentDirect] *)
Definition isRequiredSignerDirect (currentUser : DocumentUser.t)
    (doc : Document.t) : bool :=
  existsb (λ s, s.(DocumentSigner.userId) === currentUser.(DocumentUser.userId))
          doc.(requiredSigners).

(** in [signDocument] *)
Definition isRequiredSigner (currentUser : DocumentUser.t) (doc : Document.t)
    : bool :=
  existsb (λ s,
             (s.(DocumentSigner.userId) === currentUser.(DocumentUser.userId))
             || (s.(DocumentSigner.username)
                 ===? currentUser.(DocumentUser.email)))
          doc.(requiredSigners).

Definition signDocumentDirect (currentUser : option DocumentUser.t)
    (signMessage : jsstring → option jsstring) (signedAt now : Z)
    (st : DocumentState.t) (doc : Document.t)
    : DocumentState.t * result unit :=
  match currentUser with
  | None => (st, Throw NotAuthenticated)
  | Some currentUser =>
      if alreadySigned currentUser doc then (st, Throw AlreadySigned)
      else if negb (isRequiredSignerDirect currentUser doc)
      then (st, Throw NotARequiredSigner)
      else signingAttempt currentUser signMessage signedAt now doc doc.(id) st
  end.

Definition signDocument (currentUser : option DocumentUser.t)
    (signMessage : jsstring → option jsstring) (signedAt now : Z)
    (st : DocumentState.t) (documentId : jsstring)
    : DocumentState.t * result unit :=
  match currentUser with
  | None => (st, Throw NotAuthenticated)
  | Some currentUser =>
      match getDocument st.(DocumentState.documents) documentId with
      | None => (st, Throw DocumentNotFound)
      | Some doc =>
          if alreadySigned currentUser doc then (st, Throw AlreadySigned)
          else if negb (isRequiredSigner currentUser doc)
          then (st, Throw NotARequiredSigner)
          else
            signingAttempt currentUser signMessage signedAt now doc
              documentId st
      end
  end.

(** *** [createDocument]

    [newId] is the id the function draws from [Date.now()] and
    [Math.random()]; [createdAt] and [updatedAt] are the two readings of
    [new Date()] in the document literal, [signedAt] and [now] those of the
    immediate signature. *)
(** the entry [createDocument] makes of a required signer's identifier *)
Definition newSigner (userId : jsstring) : DocumentSigner.t :=
  {| DocumentSigner.userId := userId;
     DocumentSigner.username := userId;
     DocumentSigner.walletAddress := None;
     DocumentSigner.required := true;
     DocumentSigner.hasSigned := false |}.

Definition createDocument (currentUser : option DocumentUser.t)
    (signMessage : jsstring → option jsstring) (newId : jsstring)
    (createdAt updatedAt signedAt now : Z)
    (st : DocumentState.t) (params : CreateDocumentParams.t)
    : DocumentState.t * result Document.t :=
  match currentUser with
  | None => (st, Throw NotAuthenticated)
  | Some user =>
      let st := clearError (setIsLoading true st) in
      let documentContent :=
        {| data := params.(CreateDocumentParams.contentData); hash := js "" |} in
      match hashDocumentContent documentContent with
      | Throw errorMsg =>
          (setIsLoading false (setError (Some errorMsg) st), Throw errorMsg)
      | Return h =>
          let documentContent :=
            {| data := params.(CreateDocumentParams.contentData); hash := h |} in
          let doc :=
            {| id := newId;
               content := documentContent;
               createdBy := user;
               createdAt := createdAt;
               updatedAt := updatedAt;
               status := pending;
               requiredSigners :=
                 map newSigner params.(CreateDocumentParams.requiredSigners);
               signatures := [] |} in
          let st := setDocuments (λ prev, doc :: prev) st in
          if params.(CreateDocumentParams.signImmediately) then
            match signDocumentDirect currentUser signMessage signedAt now st doc with
            | (st, Throw errorMsg) =>
                (setIsLoading false (setError (Some errorMsg) st), Throw errorMsg)
            | (st, Return _) => (setIsLoading false st, Return doc)
            end
          else (setIsLoading false st, Return doc)
      end
  end.

(** *** [getSignatureStatus] *)
Definition getSignatureStatus (documents : list Document.t)
    (documentId : jsstring) : option SignatureStatus.t :=
  match getDocument documents documentId with
  | None => None
  | Some doc =>
      let total := List.length doc.(requiredSigners) in
      let signed := List.length doc.(signatures) in
      let pending :=
        map DocumentSigner.userId
            (List.filter (λ s, negb s.(DocumentSigner.hasSigned))
                    doc.(requiredSigners)) in
      let missingSigners :=
        List.filter (λ s, negb s.(DocumentSigner.hasSigned))
               doc.(requiredSigners) in
      Some {| SignatureStatus.total := total;
              SignatureStatus.signed := signed;
              SignatureStatus.percentage :=
                if (0 <? total)%nat then roundPercent signed total else 0%Z;
              SignatureStatus.pending := pending;
              SignatureStatus.complete := bool_decide (signed = total);
              SignatureStatus.missingSigners := missingSigners |}
  end.

(** *** [verifySignature]

    What [ethers.hashMessage] or [ethers.recoverAddress] throws is caught and
    reported in [error]. *)
Definition verificationFailed (signature : DocumentSignature.t)
    (message : jsstring) : SignatureVerification.t :=
  {| SignatureVerification.valid := false;
     SignatureVerification.recoveredAddress := js "";
     SignatureVerification.expectedAddress :=
       signature.(DocumentSignature.signer).(DocumentUser.walletAddress);
     SignatureVerification.addressMatch := false;
     SignatureVerification.hashMatch := false;
     SignatureVerification.error := Some message |}.

Definition verifySignature (signature : DocumentSignature.t) (doc : Document.t)
    : SignatureVerification.t :=
  let message := createDocumentMessage doc in
  match hashMessage message with
  | Throw m => verificationFailed signature m
  | Return messageHash =>
      match recoverAddress messageHash signature.(DocumentSignature.signature) with
      | Throw m => verificationFailed signature m
      | Return recoveredAddress =>
          let addressMatch :=
            toLowerCase recoveredAddress
            === toLowerCase
                  signature.(DocumentSignature.signer).(DocumentUser.walletAddress) in
          let hashMatch :=
            signature.(DocumentSignature.documentHash) === doc.(content).(hash) in
          {| SignatureVerification.valid := addressMatch && hashMatch;
             SignatureVerification.recoveredAddress := recoveredAddress;
             SignatureVerification.expectedAddress :=
               signature.(DocumentSignature.signer).(DocumentUser.walletAddress);
             SignatureVerification.addressMatch := addressMatch;
             SignatureVerification.hashMatch := hashMatch;
             SignatureVerification.error := None |}
      end
  end.

(** *** [verifyDocument] *)

(** [verification.error || 'Signature verification failed'] *)
Definition errorOrDefault (error : option jsstring) : jsstring :=
  match error with
  | None | Some [] => js "Signature verification failed"
  | Some (c :: m) => c :: m
  end.

(** The loop over [doc.signatures]: [signaturesValid] and the errors pushed. *)
Fixpoint verifySignatures (sigs : list DocumentSignature.t) (doc : Document.t)
    (signaturesValid : bool) (errors : list jsstring) : bool * list jsstring :=
  match sigs with
  | [] => (signaturesValid, errors)
  | sig :: rest =>
      let verification := verifySignature sig doc in
      if negb verification.(SignatureVerification.valid) then
        verifySignatures rest doc false
          (errors ++ [js "Invalid signature from "
                      ++ sig.(DocumentSignature.signer).(DocumentUser.username)
                      ++ js ": "
                      ++ errorOrDefault verification.(SignatureVerification.error)])
      else verifySignatures rest doc signaturesValid errors
  end.

(** The test [verifyDocument] makes for a required signer. *)
Definition hasSignature (doc : Document.t) (signer : DocumentSigner.t) : bool :=
  existsb (λ sig,
             (sig.(DocumentSignature.signer).(DocumentUser.userId)
              === signer.(DocumentSigner.userId))
             || (signer.(DocumentSigner.userId)
                 ===? sig.(DocumentSignature.signer).(DocumentUser.email))
             || (sig.(DocumentSignature.signer).(DocumentUser.userId)
                 === signer.(DocumentSigner.username)))
          doc.(signatures).

Definition verifyDocument (documents : list Document.t) (documentId : jsstring)
    (now : Z) : result DocumentVerification.t :=
  match getDocument documents documentId with
  | None => Throw DocumentNotFound
  | Some doc =>
      bind (hashDocumentContent doc.(content)) (λ fresh,
        let contentHashValid := fresh === doc.(content).(hash) in
        let '(signaturesValid, errors) :=
          verifySignatures doc.(signatures) doc true [] in
        let allSignersPresent :=
          forallb (hasSignature doc) doc.(requiredSigners) in
        let errors :=
          if negb allSignersPresent
          then errors ++ [js "Not all required signers have signed"]
          else errors in
        let valid := signaturesValid && contentHashValid && allSignersPresent in
        Return {| DocumentVerification.valid := valid;
                  DocumentVerification.signaturesValid := signaturesValid;
                  DocumentVerification.contentHashValid := contentHashValid;
                  DocumentVerification.allSignersPresent := allSignersPresent;
                  DocumentVerification.errors := errors;
                  DocumentVerification.verifiedAt := now |})
  end.

End Provider.

(** ** [validateJSONDepth] ([utils/jsonUtils.ts]) *)

Section Depth.
Context `{Numbers}.

(** [checkDepth(value, currentDepth)], the bound [maxDepth] being that of the
    enclosing call; [typeof undefined] is not ['object']. Depths are
    integers. *)
Fixpoint checkDepth (maxDepth : Z) (value : JSValue) (currentDepth : Z)
    {struct value} : bool :=
  if (currentDepth >? maxDepth)%Z then false
  else
    match value with
    | JArray items =>
        forallb (λ item, checkDepth maxDepth item (currentDepth + 1)) items
    | JObject props =>
        (fix every (ps : list (jsstring * JSValue)) : bool :=
           match ps with
           | [] => true
           | (_, val) :: rest =>
               checkDepth maxDepth val (currentDepth + 1) && every rest
           end) props
    | _ => true
    end.

(** [validateJSONDepth(obj, maxDepth)]; the source gives [maxDepth] the
    default [10]. *)
Definition validateJSONDepth (obj : JSValue) (maxDepth : Z) : bool :=
  checkDepth maxDepth obj 0.

(** How deep a value is nested: the arrays and objects around its innermost
    value; an empty array or object holds nothing and counts as a
    primitive. *)
Fixpoint nesting (v : JSValue) : nat :=
  match v with
  | JArray items => fold_right (λ item m, Nat.max (S (nesting item)) m) 0%nat items
  | JObject props =>
      (fix deepest (ps : list (jsstring * JSValue)) : nat :=
         match ps with
         | [] => 0%nat
         | (_, val) :: rest => Nat.max (S (nesting val)) (deepest rest)
         end) props
  | _ => 0%nat
  end.

End Depth.

(** ** The provider's lists and selection ([provider/DocumentProvider.tsx]) *)

Section Lists.
Context `{Numbers} `{!Platform}.

Import DocumentContent Document.

(** The test [getMyDocuments] and [getPendingDocuments] make on a required
    signer; [currentUser.email && ...] is falsy on a missing or empty
    email. *)
Definition listedAs (currentUser : DocumentUser.t) (s : DocumentSigner.t)
    : bool :=
  (s.(DocumentSigner.userId) === currentUser.(DocumentUser.userId))
  || (s.(DocumentSigner.userId) ===? currentUser.(DocumentUser.email))
  || match currentUser.(DocumentUser.email) with
     | Some (c :: email) =>
         toLowerCase s.(DocumentSigner.userId) === toLowerCase (c :: email)
     | Some [] | None => false
     end.

(** [getMyDocuments()] *)
Definition getMyDocuments (currentUser : option DocumentUser.t)
    (documents : list Document.t) : list Document.t :=
  match currentUser with
  | None => []
  | Some currentUser =>
      List.filter
        (λ doc,
           let isCreator :=
             (doc.(createdBy).(DocumentUser.userId)
              === currentUser.(DocumentUser.userId))
             || strictEqOpt2 doc.(createdBy).(DocumentUser.email)
                  currentUser.(DocumentUser.email) in
           let isRequiredSigner :=
             existsb (listedAs currentUser) doc.(requiredSigners) in
           isCreator || isRequiredSigner)
        documents
  end.

(** [getPendingDocuments()] *)
Definition getPendingDocuments (currentUser : option DocumentUser.t)
    (documents : list Document.t) : list Document.t :=
  match currentUser with
  | None => []
  | Some currentUser =>
      List.filter
        (λ doc,
           let isRequiredSigner :=
             existsb (listedAs currentUser) doc.(requiredSigners) in
           if negb isRequiredSigner then false
           else
             let hasSigned :=
               existsb
                 (λ sig,
                    (sig.(DocumentSignature.signer).(DocumentUser.userId)
                     === currentUser.(DocumentUser.userId))
                    || strictEqOpt2
                         sig.(DocumentSignature.signer).(DocumentUser.email)
                         currentUser.(DocumentUser.email))
                 doc.(signatures) in
             negb hasSigned)
        documents
  end.

(** [selectDocument(documentId)] *)
Definition selectDocument (documentId : jsstring) (st : DocumentState.t)
    : DocumentState.t :=
  let doc := getDocument st.(DocumentState.documents) documentId in
  {| DocumentState.documents := st.(DocumentState.documents);
     DocumentState.currentDocument := doc;
     DocumentState.isLoading := st.(DocumentState.isLoading);
     DocumentState.isSigning := st.(DocumentState.isSigning);
     DocumentState.error := st.(DocumentState.error) |}.

End Lists.

(** ** A platform to run the provider on

    The theorems below hold on every [Platform]. To run the provider on
    concrete documents, this section gives one: Keccak-256 and the UTF-8
    encoder and message digest of [ethers], and [Date.prototype.toISOString],
    as their specifications define them. *)

Module Keccak.
(** Keccak-f[1600] on 25 lanes of 64 bits, lane [(x, y)] at index
    [x + 5 * y]. *)
Definition mask64 : N := 18446744073709551615.

Definition rotl (v n : N) : N :=
  N.lor (N.land (N.shiftl v n) mask64) (N.shiftr v (64 - n)).

Definition lane (A : list N) (i : nat) : N := nth i A 0%N.

Definition roundConstants : list N :=
  [ 1; 32898; 9223372036854808714; 9223372039002292224; 32907; 2147483649;
    9223372039002292353; 9223372036854808585; 138; 136; 2147516425;
    2147483658; 2147516555; 9223372036854775947; 9223372036854808713;
    9223372036854808579; 9223372036854808578; 9223372036854775936; 32778;
    9223372039002259466; 9223372039002292353; 9223372036854808704;
    2147483649; 9223372039002292232 ]%N.

(** the rotation of the lane at each index *)
Definition rho : list N :=
  [ 0; 1; 62; 28; 27; 36; 44; 6; 55; 20; 3; 10; 43; 25; 39; 41; 45; 15; 21;
    8; 18; 2; 61; 56; 14 ]%N.

(** the index whose lane the step pi moves to each index *)
Definition piSource : list nat :=
  [ 0; 6; 12; 18; 24; 3; 9; 10; 16; 22; 1; 7; 13; 19; 20; 4; 5; 11; 17; 23;
    2; 8; 14; 15; 21 ]%nat.

Definition indices : list nat := seq 0 25.

Definition round (A : list N) (rc : N) : list N :=
  let C := map (λ x, N.lxor (lane A x) (N.lxor (lane A (x + 5))
             (N.lxor (lane A (x + 10)) (N.lxor (lane A (x + 15))
               (lane A (x + 20)))))) (seq 0 5) in
  let D := map (λ x, N.lxor (lane C ((x + 4) mod 5))
                            (rotl (lane C ((x + 1) mod 5)) 1)) (seq 0 5) in
  let A := map (λ i, N.lxor (lane A i) (lane D (i mod 5))) indices in
  let B := map (λ j, let i := nth j piSource 0%nat in
                     rotl (lane A i) (nth i rho 0%N)) indices in
  let A := map (λ i, let x := (i mod 5)%nat in let y := (i / 5)%nat in
                     N.lxor (lane B i)
                       (N.land (N.lxor (lane B ((x + 1) mod 5 + 5 * y)) mask64)
                               (lane B ((x + 2) mod 5 + 5 * y)))) indices in
  match A with
  | a :: rest => N.lxor a rc :: rest
  | [] => []
  end.

Definition permute (A : list N) : list N := fold_left round roundConstants A.

(** eight bytes, little-endian, as a lane and back *)
Definition laneOfBytes (bs : list N) : N :=
  fold_right (λ b acc, b + 256 * acc)%N 0%N bs.

Fixpoint bytesOfLane (n : nat) (v : N) : list N :=
  match n with
  | O => []
  | S n => (v mod 256)%N :: bytesOfLane n (v / 256)%N
  end.

Fixpoint lanesOfBlock (n : nat) (block : list N) : list N :=
  match n with
  | O => []
  | S n => laneOfBytes (take 8 block) :: lanesOfBlock n (drop 8 block)
  end.

Definition rate : nat := 136.

(** pad10*1 after the domain bits of Keccak, [0x01] *)
Definition pad (message : list N) : list N :=
  let fill := (rate - 1 - List.length message mod rate)%nat in
  match fill with
  | O => message ++ [129%N]
  | S k => message ++ [1%N] ++ repeat 0%N k ++ [128%N]
  end.

Definition absorbBlock (A block : list N) : list N :=
  let lanes := lanesOfBlock 17 block in
  permute (map (λ i, N.lxor (lane A i) (lane lanes i)) indices).

Fixpoint absorb (blocks : nat) (A padded : list N) : list N :=
  match blocks with
  | O => A
  | S blocks =>
      absorb blocks (absorbBlock A (take rate padded)) (drop rate padded)
  end.

(** Keccak-256 of a byte sequence: 32 bytes *)
Definition keccak256 (message : list N) : list N :=
  let padded := pad message in
  let A := absorb (List.length padded / rate) (repeat 0%N 25) padded in
  flat_map (bytesOfLane 8) (take 4 A).
End Keccak.

(** Lower-case hexadecimal with the prefix [0x], as [ethers] prints bytes. *)
Definition hexlify (bytes : list N) : jsstring :=
  js "0x" ++ flat_map (λ b, [hexDigit (b / 16); hexDigit (b mod 16)]%N) bytes.

(** [String(n)] on a length *)
Definition digitsOfUint : Decimal.uint → jsstring :=
  fix go (d : Decimal.uint) : jsstring :=
    match d with
    | Decimal.Nil => []
    | Decimal.D0 d => 48%N :: go d
    | Decimal.D1 d => 49%N :: go d
    | Decimal.D2 d => 50%N :: go d
    | Decimal.D3 d => 51%N :: go d
    | Decimal.D4 d => 52%N :: go d
    | Decimal.D5 d => 53%N :: go d
    | Decimal.D6 d => 54%N :: go d
    | Decimal.D7 d => 55%N :: go d
    | Decimal.D8 d => 56%N :: go d
    | Decimal.D9 d => 57%N :: go d
    end.

Definition decimal (n : N) : jsstring := digitsOfUint (N.to_uint n).

(** [ethers.toUtf8Bytes(str)] *)
Fixpoint toUtf8Bytes (str : jsstring) : result (list N) :=
  match str with
  | [] => Return []
  | c :: rest =>
      if (c <? 128)%N then
        bind (toUtf8Bytes rest) (λ bs, Return (c :: bs))
      else if (c <? 2048)%N then
        bind (toUtf8Bytes rest) (λ bs,
          Return (N.lor (N.shiftr c 6) 192 :: N.lor (N.land c 63) 128 :: bs))
      else if (N.land c 64512 =? 55296)%N then
        match rest with
        | c2 :: rest' =>
            if (N.land c2 64512 =? 56320)%N then
              let pair := (65536 + N.shiftl (N.land c 1023) 10 + N.land c2 1023)%N in
              bind (toUtf8Bytes rest') (λ bs,
                Return (N.lor (N.shiftr pair 18) 240
                        :: N.lor (N.land (N.shiftr pair 12) 63) 128
                        :: N.lor (N.land (N.shiftr pair 6) 63) 128
                        :: N.lor (N.land pair 63) 128 :: bs))
            else Throw (js "invalid surrogate pair")
        | [] => Throw (js "invalid surrogate pair")
        end
      else
        bind (toUtf8Bytes rest) (λ bs,
          Return (N.lor (N.shiftr c 12) 224
                  :: N.lor (N.land (N.shiftr c 6) 63) 128
                  :: N.lor (N.land c 63) 128 :: bs))
  end.

(** [ethers.keccak256(ethers.toUtf8Bytes(s))] *)
Definition ethersKeccak256Utf8 (s : jsstring) : result jsstring :=
  bind (toUtf8Bytes s) (λ bytes, Return (hexlify (Keccak.keccak256 bytes))).

(** [ethers.hashMessage(message)] on a string: the digest of the message's
    bytes after the prefix of EIP-191 and their number. *)
Definition ethersHashMessageBytes (message : jsstring) : result (list N) :=
  bind (toUtf8Bytes message) (λ bytes,
    bind (toUtf8Bytes ([25%N] ++ js "Ethereum Signed Message:" ++ [10%N])) (λ prefix,
      bind (toUtf8Bytes (decimal (N.of_nat (List.length bytes)))) (λ len,
        Return (Keccak.keccak256 (prefix ++ len ++ bytes))))).

Definition ethersHashMessage (message : jsstring) : result jsstring :=
  bind (ethersHashMessageBytes message) (λ digest, Return (hexlify digest)).

(** The curve secp256k1 and the recovery of a signer's key from an ECDSA
    signature, as [ethers.recoverAddress] computes it. *)
Module Secp256k1.
Local Open Scope bigZ_scope.

Definition p : bigZ :=
  115792089237316195423570985008687907853269984665640564039457584007908834671663.
Definition n : bigZ :=
  115792089237316195423570985008687907852837564279074904382605163141518161494337.
Definition Gx : bigZ :=
  55066263022277343669578718895168534326250603453777594175500187360389116729240.
Definition Gy : bigZ :=
  32670510020758816978083085130507043184471273380659243275938904335757337482424.

Fixpoint powPos (m b : bigZ) (e : positive) : bigZ :=
  match e with
  | xH => b mod m
  | xO e => let r := powPos m b e in r * r mod m
  | xI e => let r := powPos m b e in r * r mod m * b mod m
  end.

Definition power (m b : bigZ) (e : Z) : bigZ :=
  match e with
  | Zpos e => powPos m b e
  | _ => 1 mod m
  end.

(** the inverse modulo a prime *)
Definition inverse (m a : bigZ) : bigZ := power m a (BigZ.to_Z (m - 2)).

(** A point in Jacobian coordinates: [(X, Y, Z)] stands for the point
    [(X / Z^2, Y / Z^3)], and for the point at infinity when [Z] is 0. *)
Definition jacobian : Type := bigZ * bigZ * bigZ.

Definition infinity : jacobian := (1, 1, 0).

Definition double (P : jacobian) : jacobian :=
  let '(X, Y, Z) := P in
  if (Y =? 0) || (Z =? 0) then infinity
  else
    let A := X * X mod p in
    let B := Y * Y mod p in
    let C := B * B mod p in
    let D := 2 * ((X + B) * (X + B) - A - C) mod p in
    let E := 3 * A mod p in
    let X3 := (E * E - 2 * D) mod p in
    (X3, (E * (D - X3) - 8 * C) mod p, 2 * Y * Z mod p).

Definition add (P Q : jacobian) : jacobian :=
  let '(X1, Y1, Z1) := P in
  let '(X2, Y2, Z2) := Q in
  if Z1 =? 0 then Q
  else if Z2 =? 0 then P
  else
    let Z1Z1 := Z1 * Z1 mod p in
    let Z2Z2 := Z2 * Z2 mod p in
    let U1 := X1 * Z2Z2 mod p in
    let U2 := X2 * Z1Z1 mod p in
    let S1 := Y1 * Z2 mod p * Z2Z2 mod p in
    let S2 := Y2 * Z1 mod p * Z1Z1 mod p in
    if U1 =? U2 then (if S1 =? S2 then double P else infinity)
    else
      let H := (U2 - U1) mod p in
      let R := (S2 - S1) mod p in
      let H2 := H * H mod p in
      let H3 := H * H2 mod p in
      let V := U1 * H2 mod p in
      let X3 := (R * R - H3 - 2 * V) mod p in
      (X3, (R * (V - X3) - S1 * H3) mod p, H * Z1 mod p * Z2 mod p).

Fixpoint mulPos (k : positive) (P : jacobian) : jacobian :=
  match k with
  | xH => P
  | xO k => double (mulPos k P)
  | xI k => add (double (mulPos k P)) P
  end.

Definition mul (k : Z) (P : jacobian) : jacobian :=
  match k with
  | Zpos k => mulPos k P
  | _ => infinity
  end.

(** the affine coordinates; [None] for the point at infinity *)
Definition affine (P : jacobian) : option (Z * Z) :=
  let '(X, Y, Z) := P in
  if Z =? 0 then None
  else
    let zi := inverse p Z in
    let zi2 := zi * zi mod p in
    Some (BigZ.to_Z (X * zi2 mod p), BigZ.to_Z (Y * zi2 mod p * zi mod p)).

Definition G : jacobian := (Gx, Gy, 1).

(** the public key of a private key *)
Definition publicKey (d : Z) : option (Z * Z) := affine (mul d G).

(** the point of abscissa [x] whose ordinate has the parity [odd] *)
Definition lift (x : bigZ) (odd : bool) : option jacobian :=
  let c := (x * x * x + 7) mod p in
  let y := power p c (BigZ.to_Z ((p + 1) / 4)) in
  if y * y mod p =? c
  then Some (x, (if Bool.eqb (Z.odd (BigZ.to_Z y)) odd then y else p - y), 1)
  else None.

(** the key that signed the digest [z] with [(r, s)] and the parity *)
Definition recoverPublicKey (z r s : Z) (yParity : bool) : option (Z * Z) :=
  let z := BigZ.of_Z z in
  let r := BigZ.of_Z r in
  let s := BigZ.of_Z s in
  if (0 <? r) && (r <? n) && (0 <? s) && (s <? n) then
    match lift r yParity with
    | None => None
    | Some R =>
        let ir := inverse n r in
        affine (add (mul (BigZ.to_Z ((- z * ir) mod n)) G)
                    (mul (BigZ.to_Z (s * ir mod n)) R))
    end
  else None.

(** the signature of the digest [z] under the key [d] with the nonce [k]:
    [(r, s)] with [s] in the lower half, and the parity *)
Definition sign (d k z : Z) : option (Z * Z * bool) :=
  match affine (mul k G) with
  | None => None
  | Some (x, y) =>
      let r := BigZ.of_Z x mod n in
      let s := inverse n (BigZ.of_Z k) * (BigZ.of_Z z + r * BigZ.of_Z d) mod n in
      if (r =? 0) || (s =? 0) then None
      else if n / 2 <? s
      then Some (BigZ.to_Z r, BigZ.to_Z (n - s), negb (Z.odd y))
      else Some (BigZ.to_Z r, BigZ.to_Z s, Z.odd y)
  end.
End Secp256k1.

(** Bytes and hexadecimal strings, as [ethers] reads and prints them. *)

Definition hexValue (c : N) : option N :=
  if ((48 <=? c) && (c <=? 57))%N then Some (c - 48)%N
  else if ((97 <=? c) && (c <=? 102))%N then Some (c - 87)%N
  else if ((65 <=? c) && (c <=? 70))%N then Some (c - 55)%N
  else None.

Fixpoint bytesOfHexDigits (s : jsstring) : option (list N) :=
  match s with
  | [] => Some []
  | hi :: rest =>
      match rest with
      | lo :: rest' =>
          match hexValue hi, hexValue lo, bytesOfHexDigits rest' with
          | Some h, Some l, Some bs => Some ((16 * h + l)%N :: bs)
          | _, _, _ => None
          end
      | [] => None
      end
  end.

(** [getBytes(value)] on a string *)
Definition getBytes (value : jsstring) : result (list N) :=
  match value with
  | 48%N :: 120%N :: digits =>
      match bytesOfHexDigits digits with
      | Some bs => Return bs
      | None => Throw (js "invalid BytesLike value")
      end
  | _ => Throw (js "invalid BytesLike value")
  end.

(** big-endian *)
Definition toBigInt (bytes : list N) : Z :=
  fold_left (λ acc b, 256 * acc + Z.of_N b)%Z bytes 0%Z.

Fixpoint toBeBytes (width : nat) (v : Z) : list N :=
  match width with
  | O => []
  | S width => toBeBytes width (v / 256)%Z ++ [Z.to_N (v mod 256)%Z]
  end.

(** [getAddress]: the checksum of EIP-55 on forty lower-case digits *)
Definition toUpper (c : N) : N :=
  if ((97 <=? c) && (c <=? 122))%N then (c - 32)%N else c.

Definition checksumAddress (digits : jsstring) : jsstring :=
  let hashed := Keccak.keccak256 digits in
  let nibbles := flat_map (λ b, [b / 16; b mod 16]%N) hashed in
  js "0x" ++ zip_with (λ c nib, if (8 <=? nib)%N then toUpper c else c)
                      digits nibbles.

(** [computeAddress] on the point of a public key *)
Definition computeAddress (Q : Z * Z) : jsstring :=
  let '(x, y) := Q in
  let hashed := Keccak.keccak256 (toBeBytes 32 x ++ toBeBytes 32 y) in
  checksumAddress (drop 2 (hexlify (drop 12 hashed))).

(** [Signature.getNormalizedV]: the parity of the ordinate, from [v] *)
Definition yParityOfV (v : N) : result bool :=
  if ((v =? 0) || (v =? 27))%N then Return false
  else if ((v =? 1) || (v =? 28))%N then Return true
  else if (v <? 35)%N then Throw (js "invalid v")
  else Return (N.even v).

(** [ethers.recoverAddress(digest, signature)] on two strings. The messages
    of the errors are shortened to their first part. *)
Definition ethersRecoverAddress (digest signature : jsstring) : result jsstring :=
  bind (getBytes digest) (λ z,
    if negb (List.length z =? 32)%nat then Throw (js "invalid digest length")
    else
      bind (getBytes signature) (λ bytes,
        let r := take 32 bytes in
        let s := take 32 (drop 32 bytes) in
        let parsed :=
          if (List.length bytes =? 64)%nat then
            Return (toBigInt r, (toBigInt s mod 2 ^ 255)%Z,
                    (128 <=? hd 0 s)%N)
          else if (List.length bytes =? 65)%nat then
            if (128 <=? hd 0 s)%N then Throw (js "non-canonical s")
            else bind (yParityOfV (nth 64 bytes 0%N)) (λ yParity,
                   Return (toBigInt r, toBigInt s, yParity))
          else Throw (js "invalid raw signature length") in
        bind parsed (λ '(r, s, yParity),
          match Secp256k1.recoverPublicKey (toBigInt z) r s yParity with
          | Some Q => Return (computeAddress Q)
          | None => Throw (js "invalid signature for digest")
          end))).

(** A wallet: the account of a private key, and its answer to
    [personal_sign] with a nonce of its choice; [null] when it cannot sign. *)
Module Wallet.
Definition address (privateKey : Z) : jsstring :=
  match Secp256k1.publicKey privateKey with
  | Some Q => computeAddress Q
  | None => js "0x"
  end.

Definition personalSign (privateKey nonce : Z) (message : jsstring)
    : option jsstring :=
  match ethersHashMessageBytes message with
  | Throw _ => None
  | Return digest =>
      match Secp256k1.sign privateKey nonce (toBigInt digest) with
      | None => None
      | Some (r, s, yParity) =>
          Some (hexlify (toBeBytes 32 r ++ toBeBytes 32 s
                         ++ [if yParity then 28%N else 27%N]))
      end
  end.
End Wallet.

(** [Date.prototype.toISOString] on a time value: the date of the proleptic
    Gregorian calendar, in UTC. *)
Definition padStart (width : nat) (n : Z) : jsstring :=
  let digits := decimal (Z.to_N n) in
  repeat 48%N (width - List.length digits) ++ digits.

Definition dateToISOString (t : Z) : jsstring :=
  let days := (t / 86400000)%Z in
  let ms := (t mod 86400000)%Z in
  let z := (days + 719468)%Z in
  let era := (z / 146097)%Z in
  let doe := (z - era * 146097)%Z in
  let yoe := ((doe - doe / 1460 + doe / 36524 - doe / 146096) / 365)%Z in
  let doy := (doe - (365 * yoe + yoe / 4 - yoe / 100))%Z in
  let mp := ((5 * doy + 2) / 153)%Z in
  let d := (doy - (153 * mp + 2) / 5 + 1)%Z in
  let m := (if mp <? 10 then mp + 3 else mp - 9)%Z in
  let y := (yoe + era * 400 + (if m <=? 2 then 1 else 0))%Z in
  let year :=
    if ((0 <=? y) && (y <=? 9999))%Z then padStart 4 y
    else (if (y <? 0)%Z then js "-" else js "+") ++ padStart 6 (Z.abs y) in
  year ++ js "-" ++ padStart 2 m ++ js "-" ++ padStart 2 d
  ++ js "T" ++ padStart 2 (ms / 3600000)%Z
  ++ js ":" ++ padStart 2 (ms / 60000 mod 60)%Z
  ++ js ":" ++ padStart 2 (ms / 1000 mod 60)%Z
  ++ js "." ++ padStart 3 (ms mod 1000)%Z ++ js "Z".

(** [toLowerCase] on the letters of ASCII; other code units are kept. *)
Definition asciiToLowerCase (s : jsstring) : jsstring :=
  map (λ c, if ((65 <=? c) && (c <=? 90))%N then (c + 32)%N else c) s.

(** [JSON.stringify] on an integer that a double holds exactly. *)
Definition integerToJSON (z : Z) : jsstring :=
  if (z <? 0)%Z then js "-" ++ decimal (Z.abs_N z) else decimal (Z.to_N z).

(** [Math.round((signed / total) * 100)] on IEEE doubles: the two lengths
    as doubles, the quotient and the product rounded to the nearest double,
    and [Math.round] of the result, the nearest integer, a tie going up. A
    percentage is finite; on what is not, [0] stands for a value that is no
    integer. *)
Definition double (n : nat) : spec_float :=
  binary_normalize 53 1024 (Z.of_nat n) 0 false.

Definition mathRound (x : spec_float) : Z :=
  match x with
  | S754_finite s m e =>
      let mantissa := if s then Z.neg m else Z.pos m in
      if (e <? 0)%Z then ((mantissa + 2 ^ (- e - 1)) / 2 ^ (- e))%Z
      else (mantissa * 2 ^ e)%Z
  | _ => 0%Z
  end.

Definition ieeeRoundPercent (signed total : nat) : Z :=
  mathRound
    (SFmul 53 1024 (SFdiv 53 1024 (double signed) (double total))
       (double 100)).

(** The platform: the numbers of JSON values are the integers, strings are
    lower-cased on ASCII, the rest is as above. *)
Definition integers : Numbers := {| number := Z |}.

Definition reference : @Platform integers :=
  {| numberToJSON := integerToJSON : @number integers → jsstring;
     toLowerCase := asciiToLowerCase;
     toISOString := dateToISOString;
     keccak256Utf8 := ethersKeccak256Utf8;
     hashMessage := ethersHashMessage;
     recoverAddress := ethersRecoverAddress;
     roundPercent := ieeeRoundPercent |}.

(** ** Runs of the provider, and what the specification asks of them *)

Section Runs.
Context `{Platform}.

Import DocumentContent Document.

(** The state the provider mounts with when the store holds nothing. *)
Definition emptyState : DocumentState.t :=
  {| DocumentState.documents := [];
     DocumentState.currentDocument := None;
     DocumentState.isLoading := false;
     DocumentState.isSigning := false;
     DocumentState.error := None |}.

(** A call of one of the provider's operations that write documents, with
    what it reads from outside: the caller [getCurrentUser()] finds, the
    wallet, the id drawn, the clock. *)
Inductive Call : Type :=
  | CreateDocument (currentUser : option DocumentUser.t)
      (signMessage : jsstring → option jsstring) (newId : jsstring)
      (createdAt updatedAt signedAt now : Z) (params : CreateDocumentParams.t)
  | SignDocument (currentUser : option DocumentUser.t)
      (signMessage : jsstring → option jsstring) (signedAt now : Z)
      (documentId : jsstring).

(** The state a call leaves, whether it returned or threw. *)
Definition step (st : DocumentState.t) (c : Call) : DocumentState.t :=
  match c with
  | CreateDocument currentUser signMessage newId createdAt updatedAt signedAt
      now params =>
      (createDocument currentUser signMessage newId createdAt updatedAt
         signedAt now st params).1
  | SignDocument currentUser signMessage signedAt now documentId =>
      (signDocument currentUser signMessage signedAt now st documentId).1
  end.

(** The state after a sequence of calls on a provider mounted empty. *)
Definition run (calls : list Call) : DocumentState.t :=
  fold_left step calls emptyState.

(** The document literal of [createDocument], the content's hash [h]
    computed. *)
Definition newDocument (user : DocumentUser.t) (newId : jsstring)
    (createdAt updatedAt : Z) (params : CreateDocumentParams.t) (h : jsstring)
    : Document.t :=
  {| id := newId;
     content :=
       {| data := params.(CreateDocumentParams.contentData); hash := h |};
     createdBy := user;
     createdAt := createdAt;
     updatedAt := updatedAt;
     status := pending;
     requiredSigners :=
       map newSigner params.(CreateDocumentParams.requiredSigners);
     signatures := [] |}.

(** On a document the provider has built, what the flags and the status
    say: [createDocument] stores a signer's identifier as [userId] and
    [username] alike, every flag is the test [verifyDocument] makes on the
    signatures, and the status follows. *)
Definition consistent (d : Document.t) : Prop :=
  Forall (λ s, s.(DocumentSigner.username) = s.(DocumentSigner.userId)
               ∧ s.(DocumentSigner.hasSigned) = hasSignature d s)
         d.(requiredSigners)
  ∧ d.(status) =
      match d.(signatures) with
      | [] => pending
      | _ :: _ =>
          if forallb (hasSignature d) d.(requiredSigners) then complete
          else partial
      end.

(** A stored document whose [content.data] was replaced outside the provider;
    every other field, [content.hash] among them, is as it was. *)
Definition withData (data' : ContentData) (doc : Document.t) : Document.t :=
  {| id := doc.(id);
     content := {| data := data'; hash := doc.(content).(hash) |};
     createdBy := doc.(createdBy);
     createdAt := doc.(createdAt);
     status := doc.(status);
     requiredSigners := doc.(requiredSigners);
     signatures := doc.(signatures);
     updatedAt := doc.(updatedAt) |}.

(** The store after that replacement in the documents of id [documentId]. *)
Definition replaceData (documentId : jsstring) (data' : ContentData)
    (documents : list Document.t) : list Document.t :=
  map (λ d, if d.(id) === documentId then withData data' d else d) documents.

(** Modelled from the spec: the identity-match policy of the signature
    coordinator between an identity and the identifier a required signer is
    stored under: equal subject id, or equal email compared
    case-insensitively, or the stored identifier equal to the identity's
    display name. *)
Definition specIdentityMatch (identity : DocumentUser.t)
    (identifier : jsstring) : bool :=
  (identifier === identity.(DocumentUser.userId))
  || match identity.(DocumentUser.email) with
     | Some email => toLowerCase identifier === toLowerCase email
     | None => false
     end
  || (identifier === identity.(DocumentUser.username)).



(** Modelled from the spec: the identity is authorized as a required signer,
    some entry of [requiredSigners] matching it by the policy. *)
Definition specIsRequiredSigner (identity : DocumentUser.t) (doc : Document.t)
    : bool :=
  existsb (λ s, specIdentityMatch identity s.(DocumentSigner.userId))
          doc.(requiredSigners).


(** The value holds [undefined] somewhere: itself, an item of an array, or a
    property of an object, at any depth. *)
Fixpoint holdsUndefined (v : JSValue) : bool :=
  match v with
  | JUndefined => true
  | JArray items => existsb holdsUndefined items
  | JObject props =>
      (fix some (ps : list (jsstring * JSValue)) : bool :=
         match ps with
         | [] => false
         | (_, x) :: rest => holdsUndefined x || some rest
         end) props
  | _ => false
  end.

(** [t.includes(s)]: the string [s] occurs in [t]. *)
Definition includes (t s : jsstring) : Prop :=
  ∃ before after, t = before ++ s ++ after.


(** The [userId]s under which a document is signed. *)
Definition signerIds (doc : Document.t) : list jsstring :=
  map (λ sig, sig.(DocumentSignature.signer).(DocumentUser.userId))
      doc.(signatures).

(** The document found under each id holds no two signatures under one
    [userId], and only signatures of users it names as required signers. *)
Definition foundWellSigned (documents : list Document.t) : Prop :=
  ∀ documentId doc,
    getDocument documents documentId = Some doc →
    NoDup (signerIds doc)
    ∧ Forall (λ sig, isRequiredSigner sig.(DocumentSignature.signer) doc = true)
             doc.(signatures).



End Runs.

(** ** Two signers and their documents

    Alice and Bob, each with a wallet; the documents of the scenarios are
    made by the provider, on the platform above. *)

Module Scenario.
Section Scenario.
Local Existing Instances integers reference.

Definition aliceKey : Z :=
  77814517325470205911140941194401928579557062014761831930645393041380819009408%Z.
Definition bobKey : Z :=
  40606737760334725431406512677033654118342507952694270066784247067953537247501%Z.

Definition alice : DocumentUser.t :=
  {| DocumentUser.userId := js "7c1f0a52-alice";
     DocumentUser.username := js "Alice";
     DocumentUser.email := Some (js "alice@example.com");
     DocumentUser.walletAddress := Wallet.address aliceKey |}.

Definition bob : DocumentUser.t :=
  {| DocumentUser.userId := js "9e2b4d17-bob";
     DocumentUser.username := js "Bob";
     DocumentUser.email := Some (js "bob@example.com");
     DocumentUser.walletAddress := Wallet.address bobKey |}.

(** The wallets answer [personal_sign] with a nonce of theirs. *)
Definition aliceWallet (message : jsstring) : option jsstring :=
  Wallet.personalSign aliceKey
    8675309123456789012345678901234567890123456789%Z message.
Definition bobWallet (message : jsstring) : option jsstring :=
  Wallet.personalSign bobKey
    1234567890987654321234567890987654321234567890%Z message.

(** A wallet whose user rejects the request. *)
Definition rejectingWallet (message : jsstring) : option jsstring := None.

Definition docId : jsstring := js "doc_1767700800000_k3x9q2m1a".

(** 2026-01-06T12:00:00.000Z and later that day *)
Definition t0 : Z := 1767700800000.
Definition t1 : Z := 1767700860000.
Definition t2 : Z := 1767700920000.

(** Alice creates a document for herself and Bob, and signs it at once; Bob is
    named by his email. *)
Definition create (data : ContentData) (signers : list jsstring) : Call :=
  CreateDocument (Some alice) aliceWallet docId t0 t0 t0 t0
    {| CreateDocumentParams.contentData := data;
       CreateDocumentParams.requiredSigners := signers;
       CreateDocumentParams.signImmediately := true |}.

Definition bobSigns : Call := SignDocument (Some bob) bobWallet t1 t1 docId.

Definition aliceAndBob : list jsstring :=
  [js "7c1f0a52-alice"; js "bob@example.com"].

(** Scenario A: the text [hello], signed by both. *)
Definition signedText : DocumentState.t :=
  run [create (TextData (js "hello")) aliceAndBob; bobSigns].

(** The same before Bob has signed. *)
Definition created : DocumentState.t :=
  run [create (TextData (js "hello")) aliceAndBob].

(** A PDF signed by both. *)
Definition contract : PDFData.t :=
  {| PDFData.base64 := js "JVBERi0xLjQKJeLjz9MK";
     PDFData.filename := js "contract.pdf";
     PDFData.mimeType := js "application/pdf";
     PDFData.size := 15 |}.

Definition renamed : PDFData.t :=
  {| PDFData.base64 := js "JVBERi0xLjQKJeLjz9MK";
     PDFData.filename := js "invoice.pdf";
     PDFData.mimeType := js "application/pdf";
     PDFData.size := 15 |}.

Definition signedPdf : DocumentState.t :=
  run [create (PdfData contract) aliceAndBob; bobSigns].


(** A document that names Bob by his display name only. *)
Definition namedByDisplayName : DocumentState.t :=
  run [create (TextData (js "hello")) [js "7c1f0a52-alice"; js "Bob"]].

(** Carol is no required signer of the document below, which holds a
    signature under her id all the same. *)
Definition carol : DocumentUser.t :=
  {| DocumentUser.userId := js "3a9d6e80-carol";
     DocumentUser.username := js "Carol";
     DocumentUser.email := Some (js "carol@example.com");
     DocumentUser.walletAddress := Wallet.address bobKey |}.

Definition carolsSignature : DocumentSignature.t :=
  {| DocumentSignature.signer := carol;
     DocumentSignature.signature := js "0x00";
     DocumentSignature.signedAt := t0;
     DocumentSignature.documentHash := js "0x00";
     DocumentSignature.verified := false;
     DocumentSignature.verifiedAt := None |}.

Definition strayDocument (signers : list DocumentSigner.t) : Document.t :=
  {| Document.id := docId;
     Document.content :=
       {| DocumentContent.data := TextData (js "hello");
          DocumentContent.hash := js "0x00" |};
     Document.createdBy := alice;
     Document.createdAt := t0;
     Document.status := partial;
     Document.requiredSigners := signers;
     Document.signatures := [carolsSignature];
     Document.updatedAt := t0 |}.

Definition strayState (signers : list DocumentSigner.t) : DocumentState.t :=
  {| DocumentState.documents := [strayDocument signers];
     DocumentState.currentDocument := None;
     DocumentState.isLoading := false;
     DocumentState.isSigning := false;
     DocumentState.error := None |}.

(** The document a state holds first. *)
Definition firstDocument (st : DocumentState.t) : Document.t :=
  hd (strayDocument []) st.(DocumentState.documents).



(** Alice creates a document without signing it. *)
Definition createUnsigned (newId : jsstring) (signers : list jsstring) : Call :=
  CreateDocument (Some alice) aliceWallet newId t1 t1 t1 t1
    {| CreateDocumentParams.contentData := TextData (js "hello");
       CreateDocumentParams.requiredSigners := signers;
       CreateDocumentParams.signImmediately := false |}.


(** What Alice gives [createDocument] for the text [hello], and the document
    it returns. *)
Definition helloParams : CreateDocumentParams.t :=
  {| CreateDocumentParams.contentData := TextData (js "hello");
     CreateDocumentParams.requiredSigners := aliceAndBob;
     CreateDocumentParams.signImmediately := true |}.

Definition helloHash : jsstring :=
  js "0x1c8aff950685c2ed4bc3174f3472287b56d9517b9c948127319a09a7a36deac8".

Definition unsignedHello : Document.t :=
  newDocument alice docId t0 t0 helloParams helloHash.

(** What Alice gives [createDocument] for a document for Bob alone, to be
    signed at once. *)
Definition forBobAlone : CreateDocumentParams.t :=
  {| CreateDocumentParams.contentData := TextData (js "hello");
     CreateDocumentParams.requiredSigners := [js "bob@example.com"];
     CreateDocumentParams.signImmediately := true |}.

(** The same for other required signers. *)
Definition unsignedFor (signers : list jsstring) : Document.t :=
  newDocument alice docId t0 t0
    {| CreateDocumentParams.contentData := TextData (js "hello");
       CreateDocumentParams.requiredSigners := signers;
       CreateDocumentParams.signImmediately := false |}
    helloHash.

(** The signed text with one letter changed in the store. *)
Definition tamperedText : list Document.t :=
  replaceData docId (TextData (js "hellp"))
    signedText.(DocumentState.documents).

(** Two keys that the two orders tell apart: [U+FF5E] is one code unit,
    [U+1F600] a surrogate pair. *)
Definition fullwidthTilde : jsstring := [65374%N].
Definition grinningFace : jsstring := [55357%N; 56832%N].

Definition twoKeys : JSValue :=
  JObject [(fullwidthTilde, JNull); (grinningFace, JNull)].

(** Scenario B: an object and the same with its keys the other way round. *)
Definition baProperties : list (jsstring * JSValue) :=
  [(js "b", JNumber 1%Z); (js "a", JNumber 2%Z)].
Definition abProperties : list (jsstring * JSValue) :=
  [(js "a", JNumber 2%Z); (js "b", JNumber 1%Z)].
Definition ba : JSValue := JObject baProperties.
Definition ab : JSValue := JObject abProperties.

End Scenario.
End Scenario.

(** * Theorems *)

(** ** The order of [sort] *)

Lemma codeUnitLe_refl a : codeUnitLe a a = true.
Proof.
  induction a as [|x a IH]; simpl; [done|].
  by rewrite N.ltb_irrefl.
Qed.

Lemma codeUnitLe_total a b : codeUnitLe a b = true ∨ codeUnitLe b a = true.
Proof.
  revert b. induction a as [|x a IH]; intros [|y b]; simpl; auto.
  destruct (N.ltb_spec x y), (N.ltb_spec y x); auto; lia.
Qed.

Lemma codeUnitLe_antisym a b :
  codeUnitLe a b = true → codeUnitLe b a = true → a = b.
Proof.
  revert b. induction a as [|x a IH]; intros [|y b]; simpl; try done.
  destruct (N.ltb_spec x y), (N.ltb_spec y x); try done; try lia.
  intros Hab Hba. assert (x = y) as -> by lia. f_equal. by apply IH.
Qed.

Lemma codeUnitLe_trans a b c :
  codeUnitLe a b = true → codeUnitLe b c = true → codeUnitLe a c = true.
Proof.
  revert b c. induction a as [|x a IH]; intros [|y b] [|z c]; simpl; try done.
  destruct (N.ltb_spec x y), (N.ltb_spec y x), (N.ltb_spec y z),
    (N.ltb_spec z y), (N.ltb_spec x z), (N.ltb_spec z x);
    try done; try lia.
  apply IH.
Qed.

Global Instance codeUnitOrder_total : Total codeUnitOrder.
Proof. intros a b. apply codeUnitLe_total. Qed.

Global Instance codeUnitOrder_trans : Transitive codeUnitOrder.
Proof. intros a b c. apply codeUnitLe_trans. Qed.

Global Instance codeUnitOrder_antisym : AntiSymm (=) codeUnitOrder.
Proof. intros a b. apply codeUnitLe_antisym. Qed.

(** [sort] returns its argument's elements, in ascending order. *)
Lemma sort_Sorted ks : Sorted codeUnitOrder (sort ks).
Proof. apply (Sorted_merge_sort _). Qed.

Lemma sort_Permutation ks : sort ks ≡ₚ ks.
Proof. apply merge_sort_Permutation. Qed.

(** The result depends on the elements only, not on their order. *)
Lemma sort_permuted ks ks' : ks ≡ₚ ks' → sort ks = sort ks'.
Proof.
  intros Hp. apply (Sorted_unique codeUnitOrder); try apply sort_Sorted.
  by rewrite !sort_Permutation.
Qed.

(** ** [canonicalizeJSON] *)

Section JSON_facts.
Context `{Platform}.

(** Induction on values, with the hypothesis on every item of an array and
    on every property value of an object. *)
Lemma JSValue_nested_ind (P : JSValue → Prop) :
  P JNull → P JUndefined → (∀ b, P (JBool b)) → (∀ n, P (JNumber n)) →
  (∀ s, P (JString s)) →
  (∀ items, Forall P items → P (JArray items)) →
  (∀ props, Forall (λ p, P p.2) props → P (JObject props)) →
  ∀ v, P v.
Proof.
  intros Hnull Hundef Hbool Hnum Hstr Harr Hobj.
  fix go 1. intros [| |b|n|s|items|props].
  - apply Hnull.
  - apply Hundef.
  - apply Hbool.
  - apply Hnum.
  - apply Hstr.
  - apply Harr. induction items as [|x items IH]; constructor; [apply go|done].
  - apply Hobj. induction props as [|[k x] props IH]; constructor; [apply go|done].
Qed.

(** The object case as the source writes it: the sorted keys, each followed
    by the canonical form of [obj[key]]. *)
Lemma canonicalizeJSON_object props :
  canonicalizeJSON (JObject props) =
  js "{" ++ join (js ",")
    (map (λ key, dquote ++ key ++ dquote ++ js ":"
                 ++ canonicalizeJSON (get props key))
         (sort (keys props))) ++ js "}".
Proof.
  cbn [canonicalizeJSON]. do 3 f_equal. apply map_ext. intros key.
  do 4 f_equal. induction props as [|[k v] props IH]; [done|].
  cbn [get]. by destruct (k === key).
Qed.

Lemma canonicalizeJSON_array items :
  canonicalizeJSON (JArray items) =
  js "[" ++ join (js ",") (map canonicalizeJSON items) ++ js "]".
Proof. done. Qed.

Lemma distinctKeys_object props :
  distinctKeys (JObject props) = true ↔
  NoDup (keys props) ∧ Forall (λ p, distinctKeys p.2 = true) props.
Proof.
  cbn [distinctKeys]. rewrite andb_true_iff, bool_decide_eq_true.
  apply and_iff_compat_l.
  induction props as [|[k x] props IH]; [by split; [constructor|]|].
  rewrite Forall_cons_iff, <- IH. apply andb_true_iff.
Qed.

Lemma distinctKeys_array items :
  distinctKeys (JArray items) = true ↔ Forall (λ x, distinctKeys x = true) items.
Proof.
  cbn [distinctKeys].
  induction items as [|x items IH]; [by split; [constructor|]|].
  cbn [forallb]. by rewrite andb_true_iff, IH, Forall_cons_iff.
Qed.

(** Reading a property does not depend on the order of enumeration. *)
Lemma get_permuted ps qs key :
  NoDup (keys ps) → ps ≡ₚ qs → get ps key = get qs key.
Proof.
  intros Hnd Hp. revert Hnd.
  induction Hp as [|[k x] ps qs Hp IH|[k x] [k' x'] ps|ps qs rs Hp IH Hq IH'];
    intros Hnd.
  - done.
  - cbn [get]. inversion_clear Hnd. destruct (k === key); auto.
  - cbn [get]. unfold strictEq.
    repeat case_bool_decide; try done. subst.
    exfalso. inversion_clear Hnd as [|?? Hin ?]. apply Hin. by left.
  - rewrite IH by done. apply IH'. unfold keys in *. by rewrite <- Hp.
Qed.

Lemma get_canonical_related ps qs key :
  Forall2 (λ p q, p.1 = q.1 ∧ canonicalizeJSON p.2 = canonicalizeJSON q.2) ps qs →
  canonicalizeJSON (get ps key) = canonicalizeJSON (get qs key).
Proof.
  induction 1 as [|[k x] [k' x'] ps qs [Hk Hx] _ IH]; [done|].
  simpl in *. subst k'. by destruct (k === key).
Qed.

Lemma keys_related (R : JSValue → JSValue → Prop) ps qs :
  Forall2 (λ p q, p.1 = q.1 ∧ R p.2 q.2) ps qs → keys ps = keys qs.
Proof.
  induction 1 as [|[k x] [k' x'] ps qs [Hk _] _ IH]; [done|].
  simpl in *. by f_equal.
Qed.

(** Key-order independence. *)
Lemma canonicalizeJSON_keyPermuted v w :
  distinctKeys v = true → keyPermuted v w →
  canonicalizeJSON v = canonicalizeJSON w.
Proof.
  revert w. induction v as [| | | | |items IH|props IH] using JSValue_nested_ind;
    intros w Hd Hkp; inversion Hkp as [|xs ys Hall|ps qs qs' Hall Hp]; subst;
    try done.
  - rewrite !canonicalizeJSON_array. do 3 f_equal.
    apply distinctKeys_array in Hd.
    clear Hkp. induction Hall as [|x y xs ys Hxy _ IHall]; [done|].
    inversion_clear IH. inversion_clear Hd. simpl. f_equal; auto.
  - apply distinctKeys_object in Hd as [Hnd Hd].
    assert (Forall2 (λ p q, p.1 = q.1
              ∧ canonicalizeJSON p.2 = canonicalizeJSON q.2) props qs) as Hrel.
    { clear Hkp Hnd Hp. induction Hall as [|p q ps qs [Hk Hpq] _ IHall];
        [constructor|].
      inversion_clear IH. inversion_clear Hd. constructor; auto. }
    assert (keys props = keys qs) as Hkeys by (by eapply keys_related).
    rewrite !canonicalizeJSON_object.
    assert (sort (keys qs') = sort (keys props)) as ->.
    { rewrite Hkeys. apply sort_permuted. unfold keys. by rewrite Hp. }
    do 3 f_equal. apply map_ext. intros key. do 4 f_equal.
    rewrite (get_canonical_related _ _ _ Hrel).
    f_equal. apply get_permuted; [by rewrite <- Hkeys|done].
Qed.

End JSON_facts.

(** ** Strings *)

Lemma strictEq_true a b : (a === b) = true ↔ a = b.
Proof. unfold strictEq. by rewrite bool_decide_eq_true. Qed.

Lemma strictEq_false a b : (a === b) = false ↔ a ≠ b.
Proof. unfold strictEq. by rewrite bool_decide_eq_false. Qed.

Lemma strictEq_refl a : (a === a) = true.
Proof. by apply strictEq_true. Qed.

Lemma strictEq_sym a b : (a === b) = (b === a).
Proof. unfold strictEq. apply bool_decide_ext. split; congruence. Qed.

Lemma strictEqOpt_true a b : (a ===? b) = true ↔ b = Some a.
Proof. unfold strictEqOpt. rewrite bool_decide_eq_true. split; congruence. Qed.

Lemma elem_of_map {A B} (f : A → B) l x : x ∈ l → f x ∈ map f l.
Proof. rewrite !list_elem_of_In. apply in_map. Qed.

Lemma elem_of_map_iff {A B} (f : A → B) l y :
  y ∈ map f l ↔ ∃ x, f x = y ∧ x ∈ l.
Proof.
  rewrite list_elem_of_In, in_map_iff.
  by setoid_rewrite list_elem_of_In.
Qed.

Lemma includes_refl s : includes s s.
Proof. exists [], []. by rewrite app_nil_r. Qed.

Lemma includes_app t s before after :
  includes t s → includes (before ++ t ++ after) s.
Proof.
  intros (b & a & ->). exists (before ++ b), (a ++ after).
  by rewrite <- !app_assoc.
Qed.

Lemma includes_trans t s r : includes t s → includes s r → includes t r.
Proof. intros (b & a & ->) Hr. by apply includes_app. Qed.

(** An element of a joined list occurs in the result. *)
Lemma includes_join sep x xs : x ∈ xs → includes (join sep xs) x.
Proof.
  induction xs as [|y xs IH]; [by intros ?%elem_of_nil|].
  intros [->|Hin]%elem_of_cons; cbn [join].
  - destruct xs; [apply includes_refl|].
    exists [], (sep ++ join sep (l :: xs)). done.
  - destruct xs as [|z xs]; [by apply elem_of_nil in Hin|].
    apply (includes_app _ _ (y ++ sep) []) in IH; [|done].
    by rewrite app_nil_r, <- app_assoc in IH.
Qed.

(** ** [canonicalizeJSON], continued *)

Section Canonical_facts.
Context `{Platform}.

Lemma get_elem_of props key x :
  NoDup (keys props) → (key, x) ∈ props → get props key = x.
Proof.
  induction props as [|[k y] props IH]; [by intros _ ?%elem_of_nil|].
  intros Hnd [Heq|Hin]%elem_of_cons; cbn [get].
  - injection Heq as <- <-. by rewrite strictEq_refl.
  - inversion_clear Hnd as [|?? Hk Hnd'].
    destruct (k === key) eqn:E; [|by apply IH].
    apply strictEq_true in E as ->. destruct Hk.
    by apply (elem_of_map fst) in Hin.
Qed.

Lemma holdsUndefined_array items :
  holdsUndefined (JArray items) = true →
  ∃ x, x ∈ items ∧ holdsUndefined x = true.
Proof.
  cbn [holdsUndefined]. intros (x & Hin & Hx)%existsb_exists.
  exists x. by rewrite list_elem_of_In.
Qed.

Lemma holdsUndefined_object props :
  holdsUndefined (JObject props) = true →
  ∃ k x, (k, x) ∈ props ∧ holdsUndefined x = true.
Proof.
  cbn [holdsUndefined].
  induction props as [|[k x] props IH]; [done|].
  intros [Hx|Hrest]%orb_true_iff.
  - exists k, x. split; [left|done].
  - destruct (IH Hrest) as (k' & x' & Hin & Hx').
    exists k', x'. split; [by right|done].
Qed.

(** What holds [undefined] is written with the token [undefined] in it. *)
Lemma canonicalizeJSON_holdsUndefined v :
  distinctKeys v = true → holdsUndefined v = true →
  includes (canonicalizeJSON v) (js "undefined").
Proof.
  induction v as [| | | | |items IH|props IH] using JSValue_nested_ind;
    intros Hd Hu; try done.
  - apply includes_refl.
  - apply holdsUndefined_array in Hu as (x & Hin & Hx).
    apply distinctKeys_array in Hd.
    rewrite canonicalizeJSON_array. apply includes_app.
    rewrite list.Forall_forall in IH, Hd.
    eapply includes_trans;
      [apply includes_join, (elem_of_map canonicalizeJSON), Hin|auto].
  - apply holdsUndefined_object in Hu as (k & x & Hin & Hx).
    apply distinctKeys_object in Hd as [Hnd Hd].
    rewrite canonicalizeJSON_object. apply includes_app.
    rewrite list.Forall_forall in IH, Hd.
    assert (includes (canonicalizeJSON x) (js "undefined")) as Hc.
    { apply (IH (k, x)); [done| |done]. by apply (Hd (k, x)). }
    eapply includes_trans.
    + apply includes_join, (elem_of_map _ _ k).
      rewrite sort_Permutation. by apply (elem_of_map fst) in Hin.
    + cbn beta. rewrite (get_elem_of props k x) by done.
      apply (includes_app _ _ (dquote ++ k ++ dquote ++ js ":") []) in Hc.
      by rewrite app_nil_r, <- !app_assoc in Hc.
Qed.

End Canonical_facts.

(** ** The provider *)

Section Provider_facts.
Context `{Platform}.

Import DocumentContent Document.

(** *** [getDocument] *)

Lemma getDocument_Some documents documentId doc :
  getDocument documents documentId = Some doc →
  doc ∈ documents ∧ doc.(id) = documentId.
Proof.
  unfold getDocument. intros [Hin Hid]%find_some.
  by rewrite list_elem_of_In, <- strictEq_true.
Qed.

Lemma getDocument_None documents documentId :
  getDocument documents documentId = None ↔
  ∀ doc, doc ∈ documents → doc.(id) ≠ documentId.
Proof.
  unfold getDocument. split.
  - intros Hnone doc Hin%list_elem_of_In.
    apply strictEq_false. eapply find_none in Hnone; eauto.
  - intros Hall. induction documents as [|d documents IH]; [done|].
    cbn [find]. destruct (_ === _) eqn:E.
    + apply strictEq_true in E. destruct (Hall d); [left|done].
    + apply IH. intros doc Hin. apply Hall. by right.
Qed.

(** An update that keeps the ids keeps what [getDocument] finds, updated. *)
Lemma getDocument_map (f : Document.t → Document.t) documents documentId :
  (∀ d, (f d).(id) = d.(id)) →
  getDocument (map f documents) documentId
  = option_map f (getDocument documents documentId).
Proof.
  intros Hid. unfold getDocument.
  induction documents as [|d documents IH]; [done|].
  cbn [map find]. rewrite Hid. by destruct (_ === _).
Qed.

(** Replacing the content's data keeps the document under its id. *)
Lemma getDocument_replaceData documents documentId data' :
  getDocument (replaceData documentId data' documents) documentId
  = option_map (withData data') (getDocument documents documentId).
Proof.
  unfold getDocument, replaceData.
  induction documents as [|d documents IH]; [done|].
  cbn [map find]. destruct (id d === documentId) eqn:E.
  - cbn. by rewrite E.
  - by rewrite E.
Qed.

(** *** The two checks *)

Lemma alreadySigned_true currentUser doc :
  alreadySigned currentUser doc = true ↔
  ∃ sig, sig ∈ doc.(signatures)
         ∧ sig.(DocumentSignature.signer).(DocumentUser.userId)
           = currentUser.(DocumentUser.userId).
Proof.
  unfold alreadySigned. rewrite existsb_exists.
  by setoid_rewrite list_elem_of_In; setoid_rewrite strictEq_true.
Qed.

Lemma alreadySigned_false currentUser doc :
  alreadySigned currentUser doc = false ↔
  ∀ sig, sig ∈ doc.(signatures) →
         sig.(DocumentSignature.signer).(DocumentUser.userId)
         ≠ currentUser.(DocumentUser.userId).
Proof.
  rewrite <- not_true_iff_false, alreadySigned_true. split.
  - intros Hn sig Hin Heq. apply Hn. eauto.
  - intros Hall (sig & Hin & Heq). by apply (Hall sig).
Qed.

Lemma isRequiredSigner_true currentUser doc :
  isRequiredSigner currentUser doc = true ↔
  ∃ s, s ∈ doc.(requiredSigners)
       ∧ (s.(DocumentSigner.userId) = currentUser.(DocumentUser.userId)
          ∨ currentUser.(DocumentUser.email)
            = Some s.(DocumentSigner.username)).
Proof.
  unfold isRequiredSigner. rewrite existsb_exists.
  setoid_rewrite list_elem_of_In. setoid_rewrite orb_true_iff.
  setoid_rewrite strictEq_true. by setoid_rewrite strictEqOpt_true.
Qed.

Lemma isRequiredSignerDirect_true currentUser doc :
  isRequiredSignerDirect currentUser doc = true ↔
  ∃ s, s ∈ doc.(requiredSigners)
       ∧ s.(DocumentSigner.userId) = currentUser.(DocumentUser.userId).
Proof.
  unfold isRequiredSignerDirect. rewrite existsb_exists.
  by setoid_rewrite list_elem_of_In; setoid_rewrite strictEq_true.
Qed.

(** *** [createDocumentMessage] *)

(** The message reads the id, the content's type and hash, the date of
    creation, and the required signers' [userId]s. *)
Lemma createDocumentMessage_ext d d' :
  d.(id) = d'.(id) →
  type d.(content) = type d'.(content) →
  d.(content).(hash) = d'.(content).(hash) →
  d.(createdAt) = d'.(createdAt) →
  map DocumentSigner.userId d.(requiredSigners)
  = map DocumentSigner.userId d'.(requiredSigners) →
  createDocumentMessage d = createDocumentMessage d'.
Proof.
  unfold createDocumentMessage. by intros -> -> -> -> ->.
Qed.

(** *** Recording a signature *)

Lemma recordSignature_id documentId currentUser docSignature now d :
  (recordSignature documentId currentUser docSignature now d).(id) = d.(id).
Proof. unfold recordSignature. by destruct (negb _). Qed.

Lemma recordSignature_other documentId currentUser docSignature now d :
  d.(id) ≠ documentId →
  recordSignature documentId currentUser docSignature now d = d.
Proof.
  intros Hne%strictEq_false. unfold recordSignature. by rewrite Hne.
Qed.

Lemma recordSignature_signatures documentId currentUser docSignature now d :
  d.(id) = documentId →
  (recordSignature documentId currentUser docSignature now d).(signatures)
  = d.(signatures) ++ [docSignature].
Proof.
  intros Heq%strictEq_true. unfold recordSignature. by rewrite Heq.
Qed.

Lemma recordSignature_userIds documentId currentUser docSignature now d :
  map DocumentSigner.userId
    (recordSignature documentId currentUser docSignature now d).(requiredSigners)
  = map DocumentSigner.userId d.(requiredSigners).
Proof.
  unfold recordSignature. destruct (negb _); [done|]. cbn.
  rewrite map_map. apply map_ext. intros s. by destruct (hasSignedNow _ _).
Qed.

Lemma recordSignature_content documentId currentUser docSignature now d :
  (recordSignature documentId currentUser docSignature now d).(content)
  = d.(content).
Proof. unfold recordSignature. by destruct (negb _). Qed.

Lemma recordSignature_createdAt documentId currentUser docSignature now d :
  (recordSignature documentId currentUser docSignature now d).(createdAt)
  = d.(createdAt).
Proof. unfold recordSignature. by destruct (negb _). Qed.

(** The status an append gives is read off the flags it has just set; with
    a signature appended it is never left as it was. *)
Lemma recordSignature_status documentId currentUser docSignature now d :
  d.(id) = documentId →
  let d' := recordSignature documentId currentUser docSignature now d in
  d'.(status) =
    if forallb DocumentSigner.hasSigned d'.(requiredSigners) then complete
    else partial.
Proof.
  intros Heq%strictEq_true. unfold recordSignature. rewrite Heq. cbn.
  destruct (forallb _ _); [done|].
  rewrite length_app. cbn. by rewrite Nat.add_1_r.
Qed.

(** *** The signing attempt *)

(** What an attempt leaves of the documents: nothing changed when the wallet
    gave no signature, the signature recorded when it gave one. *)
Lemma signingAttempt_documents currentUser signMessage signedAt now doc
    documentId st :
  let out := signingAttempt currentUser signMessage signedAt now doc
               documentId st in
  (out.2 = Throw SigningFailed
   ∧ out.1.(DocumentState.documents) = st.(DocumentState.documents))
  ∨ (∃ docSignature,
       docSignature.(DocumentSignature.signer) = currentUser
       ∧ docSignature.(DocumentSignature.documentHash) = doc.(content).(hash)
       ∧ signMessage (createDocumentMessage doc)
         = Some docSignature.(DocumentSignature.signature)
       ∧ out.2 = Return ()
       ∧ out.1.(DocumentState.documents)
         = map (recordSignature documentId currentUser docSignature now)
               st.(DocumentState.documents)).
Proof.
  unfold signingAttempt.
  destruct (signMessage _) as [[|c s]|] eqn:E; cbn; auto.
  right. eexists. repeat split; [..|reflexivity]; done.
Qed.

(** A call of [signDocument] that throws leaves the documents as they were;
    one that returns has recorded one signature of the caller's, on the
    documents of the id it was given. *)
Lemma signDocument_documents currentUser signMessage signedAt now st
    documentId :
  let out := signDocument currentUser signMessage signedAt now st
               documentId in
  (∃ m, out.2 = Throw m
        ∧ out.1.(DocumentState.documents) = st.(DocumentState.documents))
  ∨ (∃ user doc docSignature,
       currentUser = Some user
       ∧ getDocument st.(DocumentState.documents) documentId = Some doc
       ∧ alreadySigned user doc = false
       ∧ isRequiredSigner user doc = true
       ∧ docSignature.(DocumentSignature.signer) = user
       ∧ docSignature.(DocumentSignature.documentHash) = doc.(content).(hash)
       ∧ signMessage (createDocumentMessage doc)
         = Some docSignature.(DocumentSignature.signature)
       ∧ out.2 = Return ()
       ∧ out.1.(DocumentState.documents)
         = map (recordSignature documentId user docSignature now)
               st.(DocumentState.documents)).
Proof.
  unfold signDocument. destruct currentUser as [user|]; [|left; eauto].
  destruct (getDocument _ _) as [doc|] eqn:Hdoc; [|left; eauto].
  destruct (alreadySigned _ _) eqn:Ha; [left; eauto|].
  destruct (isRequiredSigner _ _) eqn:Hr; [|left; eauto]. cbn [negb].
  destruct (signingAttempt_documents user signMessage signedAt now doc
              documentId st) as [[-> ->]|(sig & ? & ? & ? & -> & ->)].
  - left; eauto.
  - right. exists user, doc, sig. done.
Qed.

Lemma signDocumentDirect_documents currentUser signMessage signedAt now st
    doc :
  let out := signDocumentDirect currentUser signMessage signedAt now st doc in
  (∃ m, out.2 = Throw m
        ∧ out.1.(DocumentState.documents) = st.(DocumentState.documents))
  ∨ (∃ user docSignature,
       currentUser = Some user
       ∧ alreadySigned user doc = false
       ∧ isRequiredSignerDirect user doc = true
       ∧ docSignature.(DocumentSignature.signer) = user
       ∧ docSignature.(DocumentSignature.documentHash) = doc.(content).(hash)
       ∧ signMessage (createDocumentMessage doc)
         = Some docSignature.(DocumentSignature.signature)
       ∧ out.2 = Return ()
       ∧ out.1.(DocumentState.documents)
         = map (recordSignature doc.(id) user docSignature now)
               st.(DocumentState.documents)).
Proof.
  unfold signDocumentDirect. destruct currentUser as [user|]; [|left; eauto].
  destruct (alreadySigned _ _) eqn:Ha; [left; eauto|].
  destruct (isRequiredSignerDirect _ _) eqn:Hr; [|left; eauto]. cbn [negb].
  destruct (signingAttempt_documents user signMessage signedAt now doc
              doc.(id) st) as [[-> ->]|(sig & ? & ? & ? & -> & ->)].
  - left; eauto.
  - right. exists user, sig. done.
Qed.

(** *** What the flags and the status of a built document say *)

Lemma forallb_ext_Forall {A} (f g : A → bool) l :
  Forall (λ x, f x = g x) l → forallb f l = forallb g l.
Proof. induction 1 as [|x l Hx _ IH]; [done|]. cbn. by rewrite Hx, IH. Qed.

Lemma hasSignedNow_signature currentUser docSignature s :
  docSignature.(DocumentSignature.signer) = currentUser →
  s.(DocumentSigner.username) = s.(DocumentSigner.userId) →
  hasSignedNow currentUser s =
    (docSignature.(DocumentSignature.signer).(DocumentUser.userId)
     === s.(DocumentSigner.userId))
    || (s.(DocumentSigner.userId)
        ===? docSignature.(DocumentSignature.signer).(DocumentUser.email))
    || (docSignature.(DocumentSignature.signer).(DocumentUser.userId)
        === s.(DocumentSigner.username)).
Proof.
  intros <- Hname. unfold hasSignedNow. rewrite Hname.
  rewrite (strictEq_sym s.(DocumentSigner.userId)).
  destruct (_ === _); [done|]. cbn. by rewrite orb_false_r, orb_diag.
Qed.

Lemma marked_userId currentUser s :
  (if hasSignedNow currentUser s then markSigned s else s).(DocumentSigner.userId)
  = s.(DocumentSigner.userId).
Proof. by destruct (hasSignedNow _ _). Qed.

Lemma marked_username currentUser s :
  (if hasSignedNow currentUser s then markSigned s else s).(DocumentSigner.username)
  = s.(DocumentSigner.username).
Proof. by destruct (hasSignedNow _ _). Qed.

Lemma marked_hasSigned currentUser s :
  (if hasSignedNow currentUser s then markSigned s else s).(DocumentSigner.hasSigned)
  = hasSignedNow currentUser s || s.(DocumentSigner.hasSigned).
Proof. by destruct (hasSignedNow _ _). Qed.

Lemma recordSignature_consistent documentId currentUser docSignature now d :
  docSignature.(DocumentSignature.signer) = currentUser →
  consistent d →
  consistent (recordSignature documentId currentUser docSignature now d).
Proof.
  intros Hsigner [Hflags Hstatus].
  destruct (decide (d.(id) = documentId)) as [Heq|Hne];
    [|by rewrite recordSignature_other].
  assert (Forall (λ s, s.(DocumentSigner.username) = s.(DocumentSigner.userId)
            ∧ s.(DocumentSigner.hasSigned)
              = hasSignature
                  (recordSignature documentId currentUser docSignature now d) s)
            (recordSignature documentId currentUser docSignature now d)
              .(requiredSigners)) as Hflags'.
  { unfold hasSignature. rewrite recordSignature_signatures by done.
    apply strictEq_true in Heq. unfold recordSignature. rewrite Heq. cbn.
    apply Forall_map. eapply Forall_impl; [|exact Hflags].
    intros s [Hname Hflag]. cbn beta.
    rewrite !marked_userId, !marked_username, marked_hasSigned.
    split; [done|].
    rewrite existsb_app. cbn [existsb]. rewrite orb_false_r.
    rewrite <- (hasSignedNow_signature currentUser) by done.
    rewrite Hflag. apply orb_comm. }
  split; [exact Hflags'|].
  rewrite recordSignature_status, recordSignature_signatures by done.
  rewrite (forallb_ext_Forall _
             (hasSignature
                (recordSignature documentId currentUser docSignature now d))).
  - by destruct d.(signatures).
  - eapply Forall_impl; [|exact Hflags']. by intros s [_ ?].
Qed.

Lemma newDocument_consistent user newId createdAt updatedAt params h :
  consistent (newDocument user newId createdAt updatedAt params h).
Proof.
  split; [|done]. cbn. apply Forall_map, Forall_forall. by intros s _.
Qed.

Lemma signDocument_consistent currentUser signMessage signedAt now st
    documentId :
  Forall consistent st.(DocumentState.documents) →
  Forall consistent
    (signDocument currentUser signMessage signedAt now st documentId).1
      .(DocumentState.documents).
Proof.
  intros Hst.
  destruct (signDocument_documents currentUser signMessage signedAt now st
              documentId)
    as [(m & _ & ->)|(user & doc & sig & _ & _ & _ & _ & Hs & _ & _ & _ & ->)];
    [done|].
  apply Forall_map. eapply Forall_impl; [|exact Hst].
  intros d. by apply recordSignature_consistent.
Qed.

(** What a call of [createDocument] leaves of the documents: nothing changed
    when it threw before it stored the document; the new document in front
    when it was not to be signed, or when the signing threw; the new document
    in front and the creator's signature recorded otherwise. *)
Lemma createDocument_documents currentUser signMessage newId createdAt
    updatedAt signedAt now st params :
  let out := createDocument currentUser signMessage newId createdAt updatedAt
               signedAt now st params in
  (∃ m, out.2 = Throw m
        ∧ out.1.(DocumentState.documents) = st.(DocumentState.documents))
  ∨ (∃ user h,
       let doc := newDocument user newId createdAt updatedAt params h in
       currentUser = Some user
       ∧ hashDocumentContent
           {| data := params.(CreateDocumentParams.contentData);
              hash := js "" |} = Return h
       ∧ ((out.1.(DocumentState.documents)
             = doc :: st.(DocumentState.documents)
           ∧ (if params.(CreateDocumentParams.signImmediately)
              then ∃ m, out.2 = Throw m
              else out.2 = Return doc))
          ∨ (∃ docSignature,
               params.(CreateDocumentParams.signImmediately) = true
               ∧ docSignature.(DocumentSignature.signer) = user
               ∧ docSignature.(DocumentSignature.documentHash) = h
               ∧ signMessage (createDocumentMessage doc)
                 = Some docSignature.(DocumentSignature.signature)
               ∧ out.2 = Return doc
               ∧ out.1.(DocumentState.documents)
                 = map (recordSignature newId user docSignature now)
                       (doc :: st.(DocumentState.documents))))).
Proof.
  unfold createDocument. destruct currentUser as [user|]; [|left; eauto].
  destruct (hashDocumentContent _) as [h|m] eqn:Hh; [|left; eauto].
  right. exists user, h.
  change {| id := newId; content := _; createdBy := user;
            createdAt := createdAt; status := pending; requiredSigners := _;
            signatures := []; updatedAt := updatedAt |}
    with (newDocument user newId createdAt updatedAt params h).
  set (doc := newDocument user newId createdAt updatedAt params h).
  set (st1 := setDocuments _ _).
  split; [done|]. split; [done|].
  destruct (CreateDocumentParams.signImmediately params); [|left; done].
  pose proof (signDocumentDirect_documents (Some user) signMessage signedAt
                now st1 doc) as Hsign.
  destruct (signDocumentDirect _ _ _ _ _ _) as [st' r]. cbn [fst snd] in Hsign.
  destruct Hsign as [(m & -> & Hd)
                    |(u & sig & [= <-] & _ & _ & ? & ? & ? & -> & Hd)].
  - left. cbn. rewrite Hd. eauto.
  - right. exists sig. cbn. rewrite Hd. done.
Qed.

Lemma createDocument_consistent currentUser signMessage newId createdAt
    updatedAt signedAt now st params :
  Forall consistent st.(DocumentState.documents) →
  Forall consistent
    (createDocument currentUser signMessage newId createdAt updatedAt signedAt
       now st params).1.(DocumentState.documents).
Proof.
  intros Hst.
  destruct (createDocument_documents currentUser signMessage newId createdAt
              updatedAt signedAt now st params)
    as [(m & _ & ->)
       |(user & h & _ & _
         & [[-> _]|(sig & _ & Hs & _ & _ & _ & ->)])]; [done|..].
  - constructor; [apply newDocument_consistent|done].
  - apply Forall_map. eapply Forall_impl.
    + intros d. by apply recordSignature_consistent.
    + constructor; [apply newDocument_consistent|done].
Qed.

Lemma run_consistent calls : Forall consistent (run calls).(DocumentState.documents).
Proof.
  unfold run.
  assert (Forall consistent emptyState.(DocumentState.documents)) as Hst
    by constructor.
  revert Hst. generalize emptyState.
  induction calls as [|c calls IH]; intros st Hst; [done|].
  cbn [fold_left]. apply IH. destruct c; cbn [step].
  - by apply createDocument_consistent.
  - by apply signDocument_consistent.
Qed.

End Provider_facts.

(** *** The document found under an id *)

Section Found_facts.
Context `{Platform}.

Import DocumentContent Document.

Lemma recordSignature_message documentId currentUser docSignature now d :
  createDocumentMessage
    (recordSignature documentId currentUser docSignature now d)
  = createDocumentMessage d.
Proof.
  apply createDocumentMessage_ext.
  - apply recordSignature_id.
  - by rewrite recordSignature_content.
  - by rewrite recordSignature_content.
  - apply recordSignature_createdAt.
  - apply recordSignature_userIds.
Qed.

Lemma recordSignature_createdBy documentId currentUser docSignature now d :
  (recordSignature documentId currentUser docSignature now d).(createdBy)
  = d.(createdBy).
Proof. unfold recordSignature. by destruct (negb _). Qed.

Lemma isRequiredSigner_recordSignature user documentId currentUser
    docSignature now d :
  isRequiredSigner user
    (recordSignature documentId currentUser docSignature now d)
  = isRequiredSigner user d.
Proof.
  unfold isRequiredSigner, recordSignature. destruct (negb _); [done|].
  cbn [requiredSigners].
  induction d.(requiredSigners) as [|s signers IH]; [done|].
  cbn [map existsb]. by rewrite marked_userId, marked_username, IH.
Qed.

Lemma isRequiredSignerDirect_isRequiredSigner user doc :
  isRequiredSignerDirect user doc = true → isRequiredSigner user doc = true.
Proof.
  rewrite isRequiredSignerDirect_true, isRequiredSigner_true.
  intros (s & Hin & Hid). exists s. auto.
Qed.

Lemma signerIds_recordSignature documentId user docSignature now d :
  d.(id) = documentId →
  docSignature.(DocumentSignature.signer) = user →
  signerIds (recordSignature documentId user docSignature now d)
  = signerIds d ++ [user.(DocumentUser.userId)].
Proof.
  intros Hid <-. unfold signerIds.
  by rewrite recordSignature_signatures, map_app.
Qed.

Lemma alreadySigned_signerIds user doc :
  alreadySigned user doc = true ↔ user.(DocumentUser.userId) ∈ signerIds doc.
Proof.
  rewrite alreadySigned_true. unfold signerIds. rewrite elem_of_map_iff.
  split; intros (sig & ? & ?); by exists sig.
Qed.

(** Recording a signature of a user who passed the checks on the document
    found keeps the documents found well signed. *)
Lemma recordSignature_found documents documentId user docSignature now doc :
  foundWellSigned documents →
  getDocument documents documentId = Some doc →
  alreadySigned user doc = false → isRequiredSigner user doc = true →
  docSignature.(DocumentSignature.signer) = user →
  foundWellSigned
    (map (recordSignature documentId user docSignature now) documents).
Proof.
  intros Hfound Hdoc Hnot Hreq Hs id' doc'.
  rewrite getDocument_map by apply recordSignature_id.
  destruct (getDocument documents id') as [d|] eqn:Hd; [|done].
  intros [= <-]. destruct (Hfound id' d Hd) as [Hnd Hsigners].
  destruct (decide (d.(id) = documentId)) as [Heq|Hne];
    [|by rewrite recordSignature_other].
  assert (d = doc) as ->.
  { pose proof (getDocument_Some _ _ _ Hd) as [_ Hid].
    rewrite Heq in Hid. subst id'. congruence. }
  split.
  - rewrite signerIds_recordSignature by done.
    apply list.NoDup_app. split; [done|]. split; [|apply list.NoDup_singleton].
    intros x Hx [->|[]%elem_of_nil]%elem_of_cons.
    apply alreadySigned_signerIds in Hx. congruence.
  - rewrite recordSignature_signatures by done. apply Forall_app. split.
    + eapply Forall_impl; [|exact Hsigners]. intros sig Hsig.
      by rewrite isRequiredSigner_recordSignature.
    + constructor; [|constructor].
      by rewrite isRequiredSigner_recordSignature, Hs.
Qed.

Lemma signDocument_found currentUser signMessage signedAt now st documentId :
  foundWellSigned st.(DocumentState.documents) →
  foundWellSigned
    (signDocument currentUser signMessage signedAt now st documentId).1
      .(DocumentState.documents).
Proof.
  intros Hst.
  destruct (signDocument_documents currentUser signMessage signedAt now st
              documentId)
    as [(m & _ & ->)
       |(user & doc & sig & _ & Hdoc & Hnot & Hreq & Hs & _ & _ & _ & ->)];
    [done|].
  by apply (recordSignature_found _ _ _ _ _ doc).
Qed.

Lemma newDocument_found user newId createdAt updatedAt params h documents :
  foundWellSigned documents →
  foundWellSigned
    (newDocument user newId createdAt updatedAt params h :: documents).
Proof.
  intros Hfound id' doc'. unfold getDocument. cbn [find id newDocument].
  destruct (newId === id'); [|apply Hfound].
  intros [= <-]. split; constructor.
Qed.

Lemma createDocument_found currentUser signMessage newId createdAt updatedAt
    signedAt now st params :
  foundWellSigned st.(DocumentState.documents) →
  foundWellSigned
    (createDocument currentUser signMessage newId createdAt updatedAt signedAt
       now st params).1.(DocumentState.documents).
Proof.
  intros Hst. unfold createDocument.
  destruct currentUser as [user|]; [|done].
  destruct (hashDocumentContent _) as [h|m]; [|done].
  change {| id := newId; content := _; createdBy := user;
            createdAt := createdAt; status := pending; requiredSigners := _;
            signatures := []; updatedAt := updatedAt |}
    with (newDocument user newId createdAt updatedAt params h).
  set (doc := newDocument user newId createdAt updatedAt params h).
  set (st1 := setDocuments _ _).
  assert (foundWellSigned st1.(DocumentState.documents)) as Hst1
    by by apply newDocument_found.
  destruct (CreateDocumentParams.signImmediately params); [|done].
  pose proof (signDocumentDirect_documents (Some user) signMessage signedAt
                now st1 doc) as Hsign.
  destruct (signDocumentDirect _ _ _ _ _ _) as [st' r]. cbn [fst snd] in Hsign.
  destruct Hsign as [(m & -> & Hd)
                    |(u & sig & [= <-] & Hnot & Hreq & Hs & _ & _ & -> & Hd)];
    cbn [fst setIsLoading setError DocumentState.documents]; rewrite Hd;
    [done|].
  apply (recordSignature_found _ _ _ _ _ doc); try done.
  - unfold getDocument, st1. cbn [setDocuments DocumentState.documents find].
    by rewrite strictEq_refl.
  - by apply isRequiredSignerDirect_isRequiredSigner.
Qed.

(** On the documents the provider has built, from an empty store, the
    document found under an id is well signed. *)
Lemma run_found calls : foundWellSigned (run calls).(DocumentState.documents).
Proof.
  unfold run.
  assert (foundWellSigned emptyState.(DocumentState.documents)) as Hst
    by (by intros ? ?).
  revert Hst. generalize emptyState.
  induction calls as [|c calls IH]; intros st Hst; [done|].
  cbn [fold_left]. apply IH. destruct c; cbn [step].
  - by apply createDocument_found.
  - by apply signDocument_found.
Qed.





End Found_facts.

(** * The claims of the specification *)

Section Claims.
Context `{Platform}.

Import DocumentContent Document.

(** C6 (amended): for a value [v] whose objects have distinct keys and any
    [w] that is [v] with the keys of some objects enumerated in another
    order, [canonicalizeJSON w = canonicalizeJSON v], and the two contents
    hash alike. An object is written as its keys sorted in ascending order of
    UTF-16 code units (not of code points), each with the canonical form of
    its value, separated by [,] and [:] and nothing else; an array as its
    items in their order. *)
Theorem canonicalizeJSON_key_order_independent v w h h' :
  distinctKeys v = true → keyPermuted v w →
  canonicalizeJSON w = canonicalizeJSON v
  ∧ hashDocumentContent {| data := JsonData w; hash := h' |}
    = hashDocumentContent {| data := JsonData v; hash := h |}
  ∧ (∀ props, ∃ sortedKeys,
       Sorted codeUnitOrder sortedKeys
       ∧ sortedKeys ≡ₚ keys props
       ∧ canonicalizeJSON (JObject props)
         = js "{" ++ join (js ",")
             (map (λ key, dquote ++ key ++ dquote ++ js ":"
                          ++ canonicalizeJSON (get props key))
                  sortedKeys) ++ js "}")
  ∧ (∀ items,
       canonicalizeJSON (JArray items)
       = js "[" ++ join (js ",") (map canonicalizeJSON items) ++ js "]").
Proof.
  intros Hd Hkp.
  pose proof (canonicalizeJSON_keyPermuted v w Hd Hkp) as Heq.
  split; [done|]. split; [|split].
  - unfold hashDocumentContent, canonicalForm. cbn. by rewrite Heq.
  - intros props. exists (sort (keys props)).
    split; [apply sort_Sorted|]. split; [apply sort_Permutation|].
    apply canonicalizeJSON_object.
  - apply canonicalizeJSON_array.
Qed.

(** C7: the message is a function of the document's [id], [content.type],
    [content.hash], [createdAt] and the identifiers of its required signers,
    in their order: two documents that agree on these have the same message,
    whatever their signatures, their status, their dates of update and the
    flags [hasSigned] of their required signers are. In particular the
    message of a document is the same before and after a signature is
    recorded, so every signer signs the same string. *)
Theorem createDocumentMessage_pure d d' :
  d.(id) = d'.(id) →
  type d.(content) = type d'.(content) →
  d.(content).(hash) = d'.(content).(hash) →
  d.(createdAt) = d'.(createdAt) →
  map DocumentSigner.userId d.(requiredSigners)
  = map DocumentSigner.userId d'.(requiredSigners) →
  createDocumentMessage d = createDocumentMessage d'
  ∧ (∀ documentId currentUser docSignature now,
       createDocumentMessage
         (recordSignature documentId currentUser docSignature now d)
       = createDocumentMessage d).
Proof.
  intros Hid Hty Hh Hc Hr. split.
  - by apply createDocumentMessage_ext.
  - intros. apply recordSignature_message.
Qed.

(** C8 (amended): [canonicalizeJSON] does not fail on [undefined]: it writes
    the token [undefined] for it, so the canonical form of a value (with
    distinct keys in its objects) that holds [undefined] at any depth
    includes that token, and the content is hashed all the same. *)
Theorem canonicalizeJSON_writes_undefined v h :
  distinctKeys v = true → holdsUndefined v = true →
  includes (canonicalizeJSON v) (js "undefined")
  ∧ canonicalizeJSON JUndefined = js "undefined"
  ∧ hashDocumentContent {| data := JsonData v; hash := h |}
    = keccak256Utf8 (canonicalizeJSON v).
Proof.
  intros Hd Hu. split; [by apply canonicalizeJSON_holdsUndefined|done].
Qed.

(** C10: for the document [getDocument] finds, [getSignatureStatus] reports
    [signed] as the length of [signatures], [total] as the length of
    [requiredSigners], [complete] as the equality of the two lengths, no
    signature being matched with a required signer, and [pending] and
    [missingSigners] from the flags [hasSigned]. With no required signer,
    [percentage] is [0] and [complete] says that there is no signature
    either; on the documents the provider has built, from an empty store,
    there is none, and the report is [complete] with [percentage] [0]. *)
Theorem getSignatureStatus_fields documents documentId doc :
  getDocument documents documentId = Some doc →
  ∃ s, getSignatureStatus documents documentId = Some s
       ∧ s.(SignatureStatus.signed) = List.length doc.(signatures)
       ∧ s.(SignatureStatus.total) = List.length doc.(requiredSigners)
       ∧ (s.(SignatureStatus.complete) = true
          ↔ List.length doc.(signatures) = List.length doc.(requiredSigners))
       ∧ s.(SignatureStatus.missingSigners)
         = List.filter (λ r, negb r.(DocumentSigner.hasSigned))
             doc.(requiredSigners)
       ∧ s.(SignatureStatus.pending)
         = map DocumentSigner.userId s.(SignatureStatus.missingSigners)
       ∧ (doc.(requiredSigners) = [] →
          s.(SignatureStatus.percentage) = 0%Z
          ∧ (s.(SignatureStatus.complete) = true ↔ doc.(signatures) = []))
       ∧ ((∃ calls, documents = (run calls).(DocumentState.documents)) →
          doc.(requiredSigners) = [] →
          s.(SignatureStatus.complete) = true
          ∧ s.(SignatureStatus.percentage) = 0%Z).
Proof.
  intros Hdoc. unfold getSignatureStatus. rewrite Hdoc.
  eexists. split; [reflexivity|]. cbn.
  split; [done|]. split; [done|]. split; [apply bool_decide_eq_true|].
  split; [done|]. split; [done|]. split.
  - intros ->. split; [done|]. rewrite bool_decide_eq_true.
    by destruct doc.(signatures).
  - intros [calls ->] Hnone.
    destruct (run_found calls documentId doc Hdoc) as [_ Hsigners].
    assert (doc.(signatures) = []) as Hsigs.
    { destruct Hsigners as [|sig sigs Hsig _]; [done|].
      unfold isRequiredSigner in Hsig. by rewrite Hnone in Hsig. }
    rewrite Hnone, Hsigs. by split; [apply bool_decide_eq_true_2|].
Qed.

(** C1 (amended): when the content of a stored document was replaced and the
    hash computed from the new content differs from the stored
    [content.hash], [verifyDocument] reports [contentHashValid = false] and
    [valid = false]. *)
Theorem verifyDocument_detects_changed_hash documents documentId doc data'
    fresh now :
  getDocument documents documentId = Some doc →
  hashDocumentContent (withData data' doc).(content) = Return fresh →
  (fresh === doc.(content).(hash)) = false →
  ∃ v, verifyDocument (replaceData documentId data' documents) documentId now
       = Return v
       ∧ v.(DocumentVerification.contentHashValid) = false
       ∧ v.(DocumentVerification.valid) = false.
Proof.
  intros Hdoc Hfresh Hne. unfold verifyDocument.
  rewrite getDocument_replaceData, Hdoc. cbn [option_map].
  rewrite Hfresh. cbn [bind].
  destruct (verifySignatures _ _ _ _) as [signaturesValid errors].
  eexists. split; [reflexivity|]. cbn. rewrite Hne.
  split; [done|]. by rewrite andb_false_r.
Qed.


(** C3 (amended): for a document [signDocument] finds and a caller who has
    not signed it, the caller is let through to the signing when some entry
    of [requiredSigners] has the caller's [userId], or has the caller's email
    as its [username]; the call fails with [NotARequiredSigner], the state
    untouched, when no entry has the caller's [userId] and none has the
    caller's email as its [username] even with case ignored. The display
    name is not compared. [signDocumentDirect] lets through on an equal
    [userId], and fails in the same way under the same condition. *)
Theorem signDocument_required_signer user signMessage signedAt now st
    documentId doc :
  getDocument st.(DocumentState.documents) documentId = Some doc →
  alreadySigned user doc = false →
  ((∃ s, s ∈ doc.(requiredSigners)
         ∧ (s.(DocumentSigner.userId) = user.(DocumentUser.userId)
            ∨ user.(DocumentUser.email) = Some s.(DocumentSigner.username))) →
   signDocument (Some user) signMessage signedAt now st documentId
   = signingAttempt user signMessage signedAt now doc documentId st)
  ∧ ((∃ s, s ∈ doc.(requiredSigners)
           ∧ s.(DocumentSigner.userId) = user.(DocumentUser.userId)) →
     signDocumentDirect (Some user) signMessage signedAt now st doc
     = signingAttempt user signMessage signedAt now doc doc.(id) st)
  ∧ ((∀ s, s ∈ doc.(requiredSigners) →
           s.(DocumentSigner.userId) ≠ user.(DocumentUser.userId)
           ∧ ∀ email, user.(DocumentUser.email) = Some email →
                      toLowerCase s.(DocumentSigner.username)
                      ≠ toLowerCase email) →
     signDocument (Some user) signMessage signedAt now st documentId
     = (st, Throw NotARequiredSigner)
     ∧ signDocumentDirect (Some user) signMessage signedAt now st doc
       = (st, Throw NotARequiredSigner)).
Proof.
  intros Hdoc Hnot. unfold signDocument, signDocumentDirect.
  rewrite Hdoc, Hnot. split; [|split].
  - intros Hreq%isRequiredSigner_true. by rewrite Hreq.
  - intros Hreq%isRequiredSignerDirect_true. by rewrite Hreq.
  - intros Hnone.
    assert (isRequiredSigner user doc = false) as ->.
    { apply not_true_iff_false.
      intros (s & Hin & [Hid|Hmail])%isRequiredSigner_true;
        destruct (Hnone s Hin) as [Hne Hcase]; [done|].
      by apply (Hcase _ Hmail). }
    assert (isRequiredSignerDirect user doc = false) as ->; [|done].
    apply not_true_iff_false.
    intros (s & Hin & Hid)%isRequiredSignerDirect_true.
    by destruct (Hnone s Hin).
Qed.

(** C4 (amended): [signDocument] makes its checks in the order
    [NotAuthenticated], [DocumentNotFound], [AlreadySigned],
    [NotARequiredSigner], the first failure winning and the state left
    untouched: a caller whose [userId] is on a signature of the document gets
    [AlreadySigned] whether a required signer or not, and
    [NotARequiredSigner] is for a caller without a signature whom no entry
    names. *)
Theorem signDocument_check_order signMessage signedAt now st documentId :
  signDocument None signMessage signedAt now st documentId
  = (st, Throw NotAuthenticated)
  ∧ (∀ user,
       (∀ d, d ∈ st.(DocumentState.documents) → d.(id) ≠ documentId) →
       signDocument (Some user) signMessage signedAt now st documentId
       = (st, Throw DocumentNotFound))
  ∧ (∀ user doc,
       getDocument st.(DocumentState.documents) documentId = Some doc →
       (∃ sig, sig ∈ doc.(signatures)
               ∧ sig.(DocumentSignature.signer).(DocumentUser.userId)
                 = user.(DocumentUser.userId)) →
       signDocument (Some user) signMessage signedAt now st documentId
       = (st, Throw AlreadySigned))
  ∧ (∀ user doc,
       getDocument st.(DocumentState.documents) documentId = Some doc →
       (∀ sig, sig ∈ doc.(signatures) →
               sig.(DocumentSignature.signer).(DocumentUser.userId)
               ≠ user.(DocumentUser.userId)) →
       (∀ s, s ∈ doc.(requiredSigners) →
             s.(DocumentSigner.userId) ≠ user.(DocumentUser.userId)
             ∧ ∀ email, user.(DocumentUser.email) = Some email →
                        toLowerCase s.(DocumentSigner.username)
                        ≠ toLowerCase email) →
       signDocument (Some user) signMessage signedAt now st documentId
       = (st, Throw NotARequiredSigner)).
Proof.
  split; [done|]. split; [|split].
  - intros user Hnone%getDocument_None. unfold signDocument. by rewrite Hnone.
  - intros user doc Hdoc Hsig%alreadySigned_true. unfold signDocument.
    by rewrite Hdoc, Hsig.
  - intros user doc Hdoc Hsig%alreadySigned_false Hnone.
    unfold signDocument. rewrite Hdoc, Hsig.
    assert (isRequiredSigner user doc = false) as ->; [|done].
    apply not_true_iff_false.
    intros (s & Hin & [Hid|Hmail])%isRequiredSigner_true;
      destruct (Hnone s Hin) as [Hne Hcase]; [done|].
    by apply (Hcase _ Hmail).
Qed.


(** C9: when the caller passes the checks of [signDocument] and the wallet
    gives no signature ([null], what the transaction provider makes of every
    failure, or the empty string), the call fails with [SigningFailed] and
    the documents are left as they were: no signature is recorded and no
    field of a document changes. The error is noted in the state and
    [isSigning] is reset. *)
Theorem signDocument_signing_failed user signMessage signedAt now st
    documentId doc :
  getDocument st.(DocumentState.documents) documentId = Some doc →
  alreadySigned user doc = false →
  isRequiredSigner user doc = true →
  falsy (signMessage (createDocumentMessage doc)) = true →
  ∃ st',
    signDocument (Some user) signMessage signedAt now st documentId
    = (st', Throw SigningFailed)
    ∧ st'.(DocumentState.documents) = st.(DocumentState.documents)
    ∧ getDocument st'.(DocumentState.documents) documentId = Some doc
    ∧ st'.(DocumentState.currentDocument)
      = st.(DocumentState.currentDocument)
    ∧ st'.(DocumentState.error) = Some SigningFailed
    ∧ st'.(DocumentState.isSigning) = false.
Proof.
  intros Hdoc Hnot Hreq Hfalsy. unfold signDocument, signingAttempt.
  rewrite Hdoc, Hnot, Hreq. cbn [negb]. rewrite Hfalsy.
  eexists. split; [reflexivity|]. by cbn.
Qed.

End Claims.

(** * More of the code *)

(** ** [validateJSONDepth] *)

Section Depth_facts.
Context `{Numbers}.

Lemma nesting_object props :
  nesting (JObject props)
  = fold_right (λ item n, Nat.max (S (nesting item)) n) 0%nat (map snd props).
Proof.
  cbn [nesting]. induction props as [|[k x] props IH]; [done|].
  cbn [map fold_right snd]. by rewrite <- IH.
Qed.

Lemma checkDepth_object maxDepth props currentDepth :
  checkDepth maxDepth (JObject props) currentDepth
  = if (currentDepth >? maxDepth)%Z then false
    else forallb (λ item, checkDepth maxDepth item (currentDepth + 1))
           (map snd props).
Proof.
  cbn [checkDepth]. destruct (_ >? _)%Z; [done|].
  induction props as [|[k x] props IH]; [done|].
  cbn [map forallb snd]. by rewrite <- IH.
Qed.

Lemma deepest_items (d m : Z) items :
  (d + Z.of_nat (fold_right (λ item n, Nat.max (S (nesting item)) n) 0%nat
                   items) ≤ m)%Z
  ↔ (d ≤ m)%Z ∧ Forall (λ item, (d + 1 + Z.of_nat (nesting item) ≤ m)%Z) items.
Proof.
  induction items as [|x items IH]; cbn [fold_right].
  - split; [intros ?; split; [lia|constructor]|intros [? _]; lia].
  - rewrite Forall_cons_iff. split.
    + intros Hle. split; [lia|]. split; [lia|]. apply IH. lia.
    + intros (Hd & Hx & Hrest). pose proof (proj2 IH (conj Hd Hrest)). lia.
Qed.

Lemma checkDepth_items maxDepth items d :
  Forall (λ v, ∀ currentDepth,
            checkDepth maxDepth v currentDepth = true
            ↔ (currentDepth + Z.of_nat (nesting v) ≤ maxDepth)%Z) items →
  (if (d >? maxDepth)%Z then false
   else forallb (λ item, checkDepth maxDepth item (d + 1)) items) = true
  ↔ (d + Z.of_nat (fold_right (λ item n, Nat.max (S (nesting item)) n) 0%nat
                     items) ≤ maxDepth)%Z.
Proof.
  intros IH. rewrite deepest_items.
  destruct (Z.gtb_spec d maxDepth) as [Hgt|Hle]; [split; [done|lia]|].
  rewrite forallb_forall, list.Forall_forall.
  setoid_rewrite <- list_elem_of_In. rewrite list.Forall_forall in IH.
  split.
  - intros Hall. split; [done|]. intros x Hin. by apply IH, Hall.
  - intros [_ Hall] x Hin. by apply IH, Hall.
Qed.

(** A value passes at depth [currentDepth] exactly when its innermost values
    lie within the bound. *)
Lemma checkDepth_nesting maxDepth v currentDepth :
  checkDepth maxDepth v currentDepth = true
  ↔ (currentDepth + Z.of_nat (nesting v) ≤ maxDepth)%Z.
Proof.
  revert currentDepth.
  induction v as [| | | | |items IH|props IH] using JSValue_nested_ind;
    intros d.
  1-5: cbn [checkDepth nesting];
    destruct (Z.gtb_spec d maxDepth); split; (done || lia).
  - by apply checkDepth_items.
  - rewrite checkDepth_object, nesting_object. apply checkDepth_items.
    by apply Forall_map.
Qed.

(** X1: [validateJSONDepth(obj, maxDepth)] accepts exactly the values nested
    no deeper than [maxDepth], an empty array or object counting as a
    primitive; under a negative bound it accepts nothing, and what it accepts
    under a bound it accepts under every larger one. *)
Theorem validateJSONDepth_nesting obj maxDepth :
  (validateJSONDepth obj maxDepth = true
   ↔ (Z.of_nat (nesting obj) ≤ maxDepth)%Z)
  ∧ ((maxDepth < 0)%Z → validateJSONDepth obj maxDepth = false)
  ∧ (∀ larger, (maxDepth ≤ larger)%Z →
               validateJSONDepth obj maxDepth = true →
               validateJSONDepth obj larger = true).
Proof.
  unfold validateJSONDepth. split; [|split].
  - by rewrite checkDepth_nesting.
  - intros Hneg. apply not_true_iff_false. rewrite checkDepth_nesting. lia.
  - intros larger Hle. rewrite !checkDepth_nesting. lia.
Qed.

End Depth_facts.

(** ** What the canonical form and the message do not tell apart *)

Section Extras.
Context `{Platform}.

Import DocumentContent Document.

Lemma sort_two a b : codeUnitLe a b = true → sort [a; b] = [a; b].
Proof.
  intros Hle. apply (Sorted_unique codeUnitOrder).
  - apply sort_Sorted.
  - repeat constructor. exact Hle.
  - apply sort_Permutation.
Qed.

Lemma sort_one a : sort [a] = [a].
Proof.
  apply (Sorted_unique codeUnitOrder).
  - apply sort_Sorted.
  - repeat constructor.
  - apply sort_Permutation.
Qed.

(** X2: keys are written between quotes without escaping, so the canonical
    form is not injective: an object of two properties and the object of one
    property whose key spells out the first property and the second key are
    written, and hashed, alike. *)
Theorem canonicalizeJSON_key_not_escaped a b x y h h' :
  a ≠ b → codeUnitLe a b = true →
  let two := JObject [(a, x); (b, y)] in
  let one :=
    JObject [(a ++ dquote ++ js ":" ++ canonicalizeJSON x ++ js ","
                ++ dquote ++ b, y)] in
  canonicalizeJSON one = canonicalizeJSON two
  ∧ hashDocumentContent {| data := JsonData one; hash := h |}
    = hashDocumentContent {| data := JsonData two; hash := h' |}.
Proof.
  intros Hne Hle two one.
  assert (canonicalizeJSON one = canonicalizeJSON two) as Heq.
  { unfold one, two. rewrite !canonicalizeJSON_object. cbn [keys map fst].
    rewrite sort_one, (sort_two _ _ Hle). cbn [map join get].
    rewrite !strictEq_refl.
    assert ((a === b) = false) as -> by by apply strictEq_false.
    by rewrite <- !app_assoc. }
  split; [done|].
  change (keccak256Utf8 (canonicalizeJSON one)
          = keccak256Utf8 (canonicalizeJSON two)).
  by rewrite Heq.
Qed.

(** X3: the message joins the required signers' ids with a comma and a space
    and does not delimit them otherwise, so two documents that differ in
    their required signers can have the same message to sign: two signers
    [x] and [y], or the one signer [x, y]. *)
Theorem createDocumentMessage_signers_joined d d' x y :
  d.(id) = d'.(id) →
  type d.(content) = type d'.(content) →
  d.(content).(hash) = d'.(content).(hash) →
  d.(createdAt) = d'.(createdAt) →
  map DocumentSigner.userId d.(requiredSigners) = [x; y] →
  map DocumentSigner.userId d'.(requiredSigners) = [x ++ js ", " ++ y] →
  createDocumentMessage d = createDocumentMessage d'.
Proof.
  unfold createDocumentMessage. by intros -> -> -> -> -> ->.
Qed.

(** ** What signing keeps *)

(** X4: whatever [signDocument] does, it neither adds nor removes a
    document, and leaves every document's id, content, creator, date of
    creation and required signers' ids as they were; so the message of every
    document is the same before and after, and every signer of a document
    signs the same string. *)
Theorem signDocument_keeps_documents currentUser signMessage signedAt now st
    documentId :
  let st' :=
    (signDocument currentUser signMessage signedAt now st documentId).1 in
  map (λ d, (d.(id), d.(content), d.(createdBy), d.(createdAt),
             map DocumentSigner.userId d.(requiredSigners)))
      st'.(DocumentState.documents)
  = map (λ d, (d.(id), d.(content), d.(createdBy), d.(createdAt),
               map DocumentSigner.userId d.(requiredSigners)))
        st.(DocumentState.documents)
  ∧ map createDocumentMessage st'.(DocumentState.documents)
    = map createDocumentMessage st.(DocumentState.documents).
Proof.
  cbn zeta.
  destruct (signDocument_documents currentUser signMessage signedAt now st
              documentId)
    as [(m & _ & ->)|(user & doc & sig & _ & _ & _ & _ & _ & _ & _ & _ & ->)];
    [done|].
  rewrite !map_map. split; apply map_ext; intros d.
  - by rewrite recordSignature_id, recordSignature_content,
      recordSignature_createdBy, recordSignature_createdAt,
      recordSignature_userIds.
  - apply recordSignature_message.
Qed.

(** X5: the verdict of [verifySignature] on a signature is the same on the
    document before and after a further signature is recorded. *)
Theorem verifySignature_after_recordSignature signature documentId
    currentUser docSignature now d :
  verifySignature signature
    (recordSignature documentId currentUser docSignature now d)
  = verifySignature signature d.
Proof.
  unfold verifySignature.
  by rewrite recordSignature_message, recordSignature_content.
Qed.

Lemma verifySignature_withData signature data' doc :
  type (withData data' doc).(content) = type doc.(content) →
  verifySignature signature (withData data' doc)
  = verifySignature signature doc.
Proof.
  intros Htype. unfold verifySignature.
  by rewrite (createDocumentMessage_ext (withData data' doc) doc).
Qed.


Lemma verifySignatures_ext sigs d d' signaturesValid errors :
  (∀ sig, verifySignature sig d = verifySignature sig d') →
  verifySignatures sigs d signaturesValid errors
  = verifySignatures sigs d' signaturesValid errors.
Proof.
  intros Hext. revert signaturesValid errors.
  induction sigs as [|sig sigs IH]; intros signaturesValid errors; [done|].
  cbn [verifySignatures]. rewrite Hext. by destruct (negb _).
Qed.

(** X7: [verifyDocument] tells a change of [content.data] only by the
    canonical form: replace the data of a stored document by data of the
    same kind with the same canonical form (a PDF under another file name,
    an object with its keys in another order) and [verifyDocument] returns
    what it returned before. *)
Theorem verifyDocument_blind_to_canonical_form documents documentId doc data'
    now :
  getDocument documents documentId = Some doc →
  type (withData data' doc).(content) = type doc.(content) →
  canonicalForm (withData data' doc).(content) = canonicalForm doc.(content) →
  verifyDocument (replaceData documentId data' documents) documentId now
  = verifyDocument documents documentId now.
Proof.
  intros Hdoc Htype Hform. unfold verifyDocument.
  rewrite getDocument_replaceData, Hdoc. cbn [option_map].
  unfold hashDocumentContent. rewrite Hform.
  destruct (keccak256Utf8 _) as [fresh|m]; [|done]. cbn [bind].
  rewrite (verifySignatures_ext _ (withData data' doc) doc)
    by (intros sig; by apply verifySignature_withData).
  done.
Qed.

(** ** What [verifyDocument] reports *)

(** The loop keeps what it was given and adds one error for each signature
    that does not verify. *)
Lemma verifySignatures_spec sigs doc signaturesValid errors :
  let out := verifySignatures sigs doc signaturesValid errors in
  out.1 = signaturesValid
          && forallb (λ sig, (verifySignature sig doc)
                               .(SignatureVerification.valid)) sigs
  ∧ ∃ more, out.2 = errors ++ more
            ∧ List.length more
              = List.length
                  (List.filter
                     (λ sig, negb (verifySignature sig doc)
                                    .(SignatureVerification.valid)) sigs).
Proof.
  revert signaturesValid errors.
  induction sigs as [|sig sigs IH]; intros signaturesValid errors.
  - cbn. rewrite andb_true_r. split; [done|]. exists []. by rewrite app_nil_r.
  - cbn [verifySignatures forallb List.filter].
    destruct (SignatureVerification.valid (verifySignature sig doc)); cbn [negb].
    + apply IH.
    + destruct (IH false (errors ++
          [js "Invalid signature from "
           ++ sig.(DocumentSignature.signer).(DocumentUser.username)
           ++ js ": "
           ++ errorOrDefault
                (verifySignature sig doc).(SignatureVerification.error)]))
        as [Hvalid (more & Hmore & Hlen)].
      cbn zeta in *. rewrite Hvalid, Hmore, andb_false_r. split; [done|].
      eexists (_ :: more). rewrite <- app_assoc. split; [done|].
      cbn. by rewrite Hlen.
Qed.

Lemma forallb_filter_negb {A} (f : A → bool) l :
  forallb f l = true ↔ List.length (List.filter (λ x, negb (f x)) l) = 0%nat.
Proof.
  induction l as [|x l IH]; [done|]. cbn. destruct (f x); cbn; [done|].
  split; [done|lia].
Qed.

(** X8: a verification that [verifyDocument] returns has one error for each
    signature that does not verify, and one more when a required signer has
    not signed; a wrong content hash adds none. So [errors] is empty exactly
    when [signaturesValid] and [allSignersPresent] hold, and a document
    whose only fault is its content hash is reported invalid without an
    error. *)
Theorem verifyDocument_errors documents documentId now doc v :
  getDocument documents documentId = Some doc →
  verifyDocument documents documentId now = Return v →
  List.length v.(DocumentVerification.errors)
  = (List.length
       (List.filter (λ sig, negb (verifySignature sig doc)
                                   .(SignatureVerification.valid))
          doc.(signatures))
     + if v.(DocumentVerification.allSignersPresent) then 0 else 1)%nat
  ∧ (v.(DocumentVerification.errors) = []
     ↔ v.(DocumentVerification.signaturesValid) = true
       ∧ v.(DocumentVerification.allSignersPresent) = true)
  ∧ v.(DocumentVerification.valid)
    = v.(DocumentVerification.signaturesValid)
      && v.(DocumentVerification.contentHashValid)
      && v.(DocumentVerification.allSignersPresent).
Proof.
  intros Hdoc. unfold verifyDocument. rewrite Hdoc.
  destruct (hashDocumentContent _) as [fresh|m]; [|done]. cbn [bind].
  pose proof (verifySignatures_spec doc.(signatures) doc true []) as Hloop.
  destruct (verifySignatures _ _ _ _) as [signaturesValid errors].
  cbn [fst snd andb app] in Hloop. destruct Hloop as [-> (more & -> & Hlen)].
  intros [= <-].
  cbn [DocumentVerification.errors DocumentVerification.allSignersPresent
       DocumentVerification.signaturesValid DocumentVerification.valid
       DocumentVerification.contentHashValid app andb].
  rewrite <- Hlen.
  assert (forallb (λ sig, (verifySignature sig doc)
                            .(SignatureVerification.valid)) doc.(signatures)
          = true ↔ more = []) as Hnone.
  { rewrite <- length_zero_iff_nil, Hlen. apply forallb_filter_negb. }
  destruct (forallb (hasSignature doc) _); cbn [negb].
  - rewrite Nat.add_0_r. split; [done|]. split; [|done].
    rewrite Hnone. split; [by intros ->|by intros [-> _]].
  - rewrite length_app. cbn [List.length]. split; [done|]. split; [|done].
    split; [by intros [_ ?]%app_eq_nil|by intros [_ ?]].
Qed.

(** X9: [verifyDocument] throws in two cases only: [Document not found] when
    no stored document has the id, and what the hashing throws when the
    content of the document cannot be hashed; otherwise it returns, whatever
    the signatures are. *)
Theorem verifyDocument_throws documents documentId now :
  match getDocument documents documentId with
  | None => verifyDocument documents documentId now = Throw DocumentNotFound
  | Some doc =>
      match hashDocumentContent doc.(content) with
      | Throw m => verifyDocument documents documentId now = Throw m
      | Return fresh =>
          ∃ v, verifyDocument documents documentId now = Return v
               ∧ v.(DocumentVerification.contentHashValid)
                 = (fresh === doc.(content).(hash))
               ∧ v.(DocumentVerification.verifiedAt) = now
      end
  end
  ∧ (getDocument documents documentId = None
     ↔ ∀ doc, doc ∈ documents → doc.(id) ≠ documentId).
Proof.
  split; [|apply getDocument_None].
  unfold verifyDocument. destruct (getDocument _ _) as [doc|]; [|done].
  destruct (hashDocumentContent _) as [fresh|m]; [|done]. cbn [bind].
  destruct (verifySignatures _ _ _ _). by eexists.
Qed.

(** X10: on every document the provider has built, from an empty store,
    [verifyDocument] finds all signers present exactly when the status is
    [complete] or there is no required signer. *)
Theorem allSignersPresent_iff_complete calls documentId now doc v :
  getDocument (run calls).(DocumentState.documents) documentId = Some doc →
  verifyDocument (run calls).(DocumentState.documents) documentId now
  = Return v →
  v.(DocumentVerification.allSignersPresent) = true
  ↔ doc.(status) = complete ∨ doc.(requiredSigners) = [].
Proof.
  intros Hdoc. unfold verifyDocument. rewrite Hdoc.
  destruct (hashDocumentContent _) as [fresh|m]; [|done]. cbn [bind].
  destruct (verifySignatures _ _ _ _) as [signaturesValid errors].
  intros [= <-]. cbn [DocumentVerification.allSignersPresent].
  apply getDocument_Some in Hdoc as [Hin _].
  pose proof (run_consistent calls) as Hall.
  rewrite list.Forall_forall in Hall. destruct (Hall doc Hin) as [_ Hstatus].
  rewrite Hstatus.
  destruct (forallb (hasSignature doc) doc.(requiredSigners)) eqn:E.
  - split; [intros _|done].
    destruct doc.(signatures) eqn:Hsigs; [right|by left].
    destruct doc.(requiredSigners) as [|s signers]; [done|].
    cbn [forallb] in E. apply andb_true_iff in E as [E _].
    unfold hasSignature in E. by rewrite Hsigs in E.
  - split; [done|]. intros [Hcomplete|Hnil].
    + by destruct doc.(signatures).
    + by rewrite Hnil in E.
Qed.

(** ** What [signDocument] leaves *)

(** X11: a call of [signDocument] that returns has found the document,
    obtained the wallet's signature of its message, and recorded it, under
    the caller and with the stored content hash, at the end of the
    signatures of that document; the documents of other ids are as they
    were. *)
Theorem signDocument_records_signature user signMessage signedAt now st
    documentId st' :
  signDocument (Some user) signMessage signedAt now st documentId
  = (st', Return ()) →
  ∃ doc docSignature,
    getDocument st.(DocumentState.documents) documentId = Some doc
    ∧ signMessage (createDocumentMessage doc)
      = Some docSignature.(DocumentSignature.signature)
    ∧ docSignature.(DocumentSignature.signer) = user
    ∧ docSignature.(DocumentSignature.documentHash) = doc.(content).(hash)
    ∧ (∃ doc', getDocument st'.(DocumentState.documents) documentId = Some doc'
               ∧ doc'.(signatures) = doc.(signatures) ++ [docSignature]
               ∧ doc'.(updatedAt) = now
               ∧ doc'.(status) ≠ pending)
    ∧ (∀ d, d.(id) ≠ documentId →
            d ∈ st.(DocumentState.documents)
            ↔ d ∈ st'.(DocumentState.documents)).
Proof.
  intros Hout.
  pose proof (signDocument_documents (Some user) signMessage signedAt now st
                documentId) as Hdocs.
  rewrite Hout in Hdocs. cbn [fst snd] in Hdocs.
  destruct Hdocs as [(m & [=] & _)
                    |(u & doc & sig & [= <-] & Hdoc & _ & _ & Hs & Hh & Hm
                      & _ & Hst')].
  exists doc, sig. repeat (split; [done|]).
  pose proof (getDocument_Some _ _ _ Hdoc) as [_ Hid]. split.
  - exists (recordSignature documentId user sig now doc).
    rewrite Hst', getDocument_map, Hdoc by apply recordSignature_id.
    split; [done|]. split; [by apply recordSignature_signatures|].
    pose proof (recordSignature_status documentId user sig now doc Hid)
      as Hstatus.
    cbn zeta in Hstatus. rewrite Hstatus.
    split; [|by destruct (forallb _ _)].
    apply strictEq_true in Hid. unfold recordSignature. by rewrite Hid.
  - intros d Hne. rewrite Hst', elem_of_map_iff. split.
    + intros Hin. exists d. by rewrite recordSignature_other.
    + intros (d0 & <- & Hin).
      rewrite recordSignature_id in Hne. by rewrite recordSignature_other.
Qed.

(** X12: [signDocument] throws one of five errors and no other, and a call
    that throws leaves the documents and the selected document as they
    were. *)
Theorem signDocument_throws currentUser signMessage signedAt now st
    documentId m :
  (signDocument currentUser signMessage signedAt now st documentId).2
  = Throw m →
  (m = NotAuthenticated ∨ m = DocumentNotFound ∨ m = AlreadySigned
   ∨ m = NotARequiredSigner ∨ m = SigningFailed)
  ∧ (signDocument currentUser signMessage signedAt now st documentId).1
      .(DocumentState.documents) = st.(DocumentState.documents)
  ∧ (signDocument currentUser signMessage signedAt now st documentId).1
      .(DocumentState.currentDocument) = st.(DocumentState.currentDocument).
Proof.
  unfold signDocument. destruct currentUser as [user|];
    [|intros [= <-]; split; [auto 6|done]].
  destruct (getDocument _ _) as [doc|];
    [|intros [= <-]; split; [auto 6|done]].
  destruct (alreadySigned _ _); [intros [= <-]; split; [auto 6|done]|].
  destruct (isRequiredSigner _ _); cbn [negb];
    [|intros [= <-]; split; [auto 6|done]].
  unfold signingAttempt. destruct (falsy _); [|done].
  intros [= <-]. split; [auto 6|done].
Qed.

(** ** The lists of the provider *)

Lemma elem_of_filter {A} (f : A → bool) l x :
  x ∈ List.filter f l ↔ x ∈ l ∧ f x = true.
Proof. by rewrite !list_elem_of_In, filter_In. Qed.

(** X13: a document [getPendingDocuments] lists is a stored document, is
    among those [getMyDocuments] lists, has a required signer that names the
    caller, and holds no signature under the caller's [userId]: a call of
    [signDocument] for it does not find it already signed. Without a user
    both lists are empty. *)
Theorem getPendingDocuments_listed currentUser documents d :
  d ∈ getPendingDocuments currentUser documents →
  ∃ user, currentUser = Some user
          ∧ d ∈ documents
          ∧ d ∈ getMyDocuments currentUser documents
          ∧ existsb (listedAs user) d.(requiredSigners) = true
          ∧ alreadySigned user d = false.
Proof.
  destruct currentUser as [user|]; cbn [getPendingDocuments getMyDocuments];
    [|by intros ?%elem_of_nil].
  rewrite !elem_of_filter. intros [Hin Htest]. exists user.
  destruct (existsb (listedAs user) _) eqn:Hlisted; [|done].
  cbn [negb] in Htest. apply negb_true_iff in Htest.
  split; [done|]. split; [done|]. split; [|split; [done|]].
  - apply elem_of_filter. split; [done|]. cbn beta zeta.
    by rewrite Hlisted, orb_true_r.
  - apply not_true_iff_false. intros (sig & Hsig & Heq)%alreadySigned_true.
    apply not_true_iff_false in Htest. apply Htest, existsb_exists.
    exists sig. rewrite <- list_elem_of_In. split; [done|].
    apply orb_true_iff. left. by apply strictEq_true.
Qed.

(** X14: once [signDocument] has returned for a caller, no document of that
    id is pending for that caller. *)
Theorem signed_not_pending user signMessage signedAt now st documentId st' :
  signDocument (Some user) signMessage signedAt now st documentId
  = (st', Return ()) →
  ∀ d, d ∈ getPendingDocuments (Some user) st'.(DocumentState.documents) →
       d.(id) ≠ documentId.
Proof.
  intros Hout d Hpending Hid.
  pose proof (signDocument_documents (Some user) signMessage signedAt now st
                documentId) as Hdocs.
  rewrite Hout in Hdocs. cbn [fst snd] in Hdocs.
  destruct Hdocs as [(m & [=] & _)
                    |(u & doc & sig & [= <-] & _ & _ & _ & Hs & _ & _ & _
                      & Hst')].
  cbn [getPendingDocuments] in Hpending.
  apply elem_of_filter in Hpending as [Hin Htest].
  destruct (existsb (listedAs user) _); [|done]. cbn [negb] in Htest.
  apply negb_true_iff, not_true_iff_false in Htest. apply Htest.
  rewrite Hst' in Hin. apply elem_of_map_iff in Hin as (d0 & <- & _).
  rewrite recordSignature_id in Hid.
  rewrite recordSignature_signatures, existsb_app by done.
  cbn [existsb]. by rewrite Hs, strictEq_refl, orb_true_r.
Qed.

(** ** Runs with fresh ids *)








(** ** What [createDocument] leaves *)

Lemma hashDocumentContent_hash data h h' :
  hashDocumentContent {| data := data; hash := h |}
  = hashDocumentContent {| data := data; hash := h' |}.
Proof. done. Qed.

Lemma getDocument_first d documents :
  getDocument (d :: documents) d.(id) = Some d.
Proof. unfold getDocument. cbn [find]. by rewrite strictEq_refl. Qed.

Lemma getDocument_new user newId createdAt updatedAt params h documents :
  getDocument (newDocument user newId createdAt updatedAt params h :: documents)
    newId
  = Some (newDocument user newId createdAt updatedAt params h).
Proof. apply (getDocument_first (newDocument _ _ _ _ _ _)). Qed.

(** X16: a call of [createDocument] that returns gives the document as it is
    before any signing: under the id drawn, created by the caller, [pending],
    without signatures, each required signer stored under the identifier
    given, as [userId] and [username] alike, and not signed; its
    [content.hash] is the hash of its content. The store holds the document
    first, where [getDocument] finds it: the very document returned when it
    was not to be signed; else the same document with the caller's signature
    recorded, which the document returned does not show. *)
Theorem createDocument_returns currentUser signMessage newId createdAt
    updatedAt signedAt now st params st' doc :
  createDocument currentUser signMessage newId createdAt updatedAt signedAt
    now st params = (st', Return doc) →
  ∃ user stored,
    currentUser = Some user
    ∧ doc.(id) = newId ∧ doc.(createdBy) = user
    ∧ doc.(status) = pending ∧ doc.(signatures) = []
    ∧ doc.(requiredSigners)
      = map newSigner params.(CreateDocumentParams.requiredSigners)
    ∧ doc.(content).(data) = params.(CreateDocumentParams.contentData)
    ∧ hashDocumentContent doc.(content) = Return doc.(content).(hash)
    ∧ getDocument st'.(DocumentState.documents) newId = Some stored
    ∧ stored.(content) = doc.(content)
    ∧ (if params.(CreateDocumentParams.signImmediately)
       then signerIds stored = [user.(DocumentUser.userId)]
            ∧ stored.(status) ≠ pending
       else stored = doc).
Proof.
  intros Hout.
  pose proof (createDocument_documents currentUser signMessage newId createdAt
                updatedAt signedAt now st params) as Hdocs.
  rewrite Hout in Hdocs. cbn [fst snd] in Hdocs.
  destruct Hdocs as [(m & [=] & _)|(user & h & -> & Hh & Hcases)].
  exists user.
  destruct Hcases as [[Hst' Hr]|(sig & Himm & Hs & _ & _ & [= ->] & Hst')].
  - destruct (CreateDocumentParams.signImmediately params);
      [by destruct Hr|]. injection Hr as ->.
    exists (newDocument user newId createdAt updatedAt params h).
    rewrite Hst'. repeat (split; [done|]).
    split; [apply getDocument_new|done].
  - exists (recordSignature newId user sig now
              (newDocument user newId createdAt updatedAt params h)).
    rewrite Hst', Himm. repeat (split; [done|]).
    split; [|split; [apply recordSignature_content|]].
    + rewrite getDocument_map by apply recordSignature_id.
      by rewrite getDocument_new.
    + unfold signerIds.
      rewrite recordSignature_signatures by done. cbn. rewrite Hs.
      split; [done|].
      pose proof (recordSignature_status newId user sig now
                    (newDocument user newId createdAt updatedAt params h)
                    eq_refl) as Hstatus.
      cbn zeta in Hstatus. rewrite Hstatus. by destruct (forallb _ _).
Qed.

(** X17: when [createDocument] is to sign at once and the signing fails, the
    call throws, but the document has been stored and stays, unsigned. In
    particular a creator whose [userId] is not among the required signers
    given (being named by email does not count here) gets
    [NotARequiredSigner] and leaves the document behind. *)
Theorem createDocument_signing_fails user signMessage newId createdAt
    updatedAt signedAt now st params h :
  hashDocumentContent
    {| data := params.(CreateDocumentParams.contentData); hash := js "" |}
  = Return h →
  params.(CreateDocumentParams.signImmediately) = true →
  (∀ st' m,
     createDocument (Some user) signMessage newId createdAt updatedAt signedAt
       now st params = (st', Throw m) →
     st'.(DocumentState.documents)
     = newDocument user newId createdAt updatedAt params h
       :: st.(DocumentState.documents))
  ∧ (user.(DocumentUser.userId)
     ∉ params.(CreateDocumentParams.requiredSigners) →
     ∃ st', createDocument (Some user) signMessage newId createdAt updatedAt
              signedAt now st params = (st', Throw NotARequiredSigner)
            ∧ st'.(DocumentState.error) = Some NotARequiredSigner
            ∧ st'.(DocumentState.isLoading) = false).
Proof.
  intros Hh Himm. split.
  - intros st' m Hout.
    pose proof (createDocument_documents (Some user) signMessage newId
                  createdAt updatedAt signedAt now st params) as Hdocs.
    rewrite Hout in Hdocs. cbn [fst snd] in Hdocs.
    destruct Hdocs as [(m' & _ & Hsame)|(u & h' & [= <-] & Hh' & Hcases)].
    + exfalso. revert Hout. unfold createDocument. rewrite Hh, Himm.
      destruct (signDocumentDirect _ _ _ _ _ _) as [st1 [[]|m1]] eqn:Hsign;
        [done|].
      intros [= <- <-].
      pose proof (signDocumentDirect_documents (Some user) signMessage
                    signedAt now
                    (setDocuments
                       (λ prev, newDocument user newId createdAt updatedAt
                                  params h :: prev)
                       (clearError (setIsLoading true st)))
                    (newDocument user newId createdAt updatedAt params h))
        as Hd.
      unfold newDocument in Hd. rewrite Hsign in Hd. cbn [fst snd] in Hd.
      destruct Hd as [(? & _ & Hd)|(? & ? & _ & _ & _ & _ & _ & _ & [=] & _)].
      cbn in Hsame, Hd. rewrite Hd in Hsame.
      by apply (f_equal List.length), Nat.neq_succ_diag_l in Hsame.
    + rewrite Hh in Hh'. injection Hh' as <-.
      by destruct Hcases as [[-> _]|(? & _ & _ & _ & _ & [=] & _)].
  - intros Hnotin. unfold createDocument. rewrite Hh, Himm.
    unfold signDocumentDirect. cbn [alreadySigned signatures existsb].
    assert (isRequiredSignerDirect user
              {| id := newId;
                 content :=
                   {| data := params.(CreateDocumentParams.contentData);
                      hash := h |};
                 createdBy := user;
                 createdAt := createdAt;
                 status := pending;
                 requiredSigners :=
                   map newSigner params.(CreateDocumentParams.requiredSigners);
                 signatures := [];
                 updatedAt := updatedAt |} = false) as ->.
    { apply not_true_iff_false.
      intros (s & Hin & Hid)%isRequiredSignerDirect_true. cbn in Hin.
      apply elem_of_map_iff in Hin as (x & <- & Hin). cbn in Hid.
      by subst x. }
    cbn [negb]. by eexists.
Qed.

(** X18: [createDocument] stores nothing when there is no user, or when the
    content cannot be hashed: it throws [NotAuthenticated] with the state
    untouched in the first case, and what the hashing throws in the second,
    noting the error. *)
Theorem createDocument_stores_nothing signMessage newId createdAt updatedAt
    signedAt now st params :
  createDocument None signMessage newId createdAt updatedAt signedAt now st
    params = (st, Throw NotAuthenticated)
  ∧ (∀ user m,
       hashDocumentContent
         {| data := params.(CreateDocumentParams.contentData);
            hash := js "" |} = Throw m →
       ∃ st', createDocument (Some user) signMessage newId createdAt updatedAt
                signedAt now st params = (st', Throw m)
              ∧ st'.(DocumentState.documents) = st.(DocumentState.documents)
              ∧ st'.(DocumentState.error) = Some m
              ∧ st'.(DocumentState.isLoading) = false).
Proof.
  split; [done|]. intros user m Hh. unfold createDocument. rewrite Hh.
  by eexists.
Qed.

(** X19: a document [createDocument] has returned is among the documents
    [getMyDocuments] lists for its creator, also when the creator is not
    among its required signers. *)
Theorem created_is_mine user signMessage newId createdAt updatedAt signedAt now
    st params st' doc :
  createDocument (Some user) signMessage newId createdAt updatedAt signedAt
    now st params = (st', Return doc) →
  ∃ stored, getDocument st'.(DocumentState.documents) newId = Some stored
            ∧ stored ∈ getMyDocuments (Some user) st'.(DocumentState.documents).
Proof.
  intros Hout.
  pose proof (createDocument_documents (Some user) signMessage newId createdAt
                updatedAt signedAt now st params) as Hdocs.
  rewrite Hout in Hdocs. cbn [fst snd] in Hdocs.
  destruct Hdocs as [(m & [=] & _)|(u & h & [= <-] & _ & Hcases)].
  assert (∃ stored,
            getDocument st'.(DocumentState.documents) newId = Some stored
            ∧ stored.(createdBy) = user) as (stored & Hstored & Hby).
  { destruct Hcases as [[-> _]|(sig & _ & _ & _ & _ & _ & ->)].
    - eexists. by rewrite getDocument_new.
    - eexists. rewrite getDocument_map, getDocument_new
        by apply recordSignature_id.
      split; [done|]. apply recordSignature_createdBy. }
  exists stored. split; [done|]. cbn [getMyDocuments].
  apply elem_of_filter. apply getDocument_Some in Hstored as [Hin _].
  split; [done|]. cbn beta zeta. by rewrite Hby, strictEq_refl.
Qed.

(** X20: [signDocument] does not touch the selected document: after
    [selectDocument] and a signing that returns, [currentDocument] is still
    the document as it was found before the signing, one signature short of
    the stored one. *)
Theorem selected_document_not_updated user signMessage signedAt now st
    documentId st' :
  signDocument (Some user) signMessage signedAt now
    (selectDocument documentId st) documentId = (st', Return ()) →
  ∃ doc doc',
    st'.(DocumentState.currentDocument) = Some doc
    ∧ getDocument st.(DocumentState.documents) documentId = Some doc
    ∧ getDocument st'.(DocumentState.documents) documentId = Some doc'
    ∧ List.length doc'.(signatures) = S (List.length doc.(signatures)).
Proof.
  intros Hout.
  pose proof (signDocument_documents (Some user) signMessage signedAt now
                (selectDocument documentId st) documentId) as Hdocs.
  rewrite Hout in Hdocs. cbn [fst snd] in Hdocs.
  destruct Hdocs as [(m & [=] & _)
                    |(u & doc & sig & [= <-] & Hdoc & _ & _ & _ & _ & _ & _
                      & Hst')].
  cbn [selectDocument DocumentState.documents] in Hdoc, Hst'.
  exists doc, (recordSignature documentId user sig now doc).
  split; [|split; [done|split]].
  - revert Hout. unfold signDocument, signingAttempt.
    cbn [selectDocument DocumentState.documents]. rewrite Hdoc.
    destruct (alreadySigned _ _); [done|].
    destruct (negb _); [done|]. destruct (falsy _); [done|].
    by intros [= <-].
  - by rewrite Hst', getDocument_map, Hdoc by apply recordSignature_id.
  - apply getDocument_Some in Hdoc as [_ Hid].
    rewrite recordSignature_signatures, length_app by done. cbn. lia.
Qed.

(** X21: a signing that returns raises by one the [signed] that
    [getSignatureStatus] reports for the document and leaves its [total]. *)
Theorem signDocument_raises_signed user signMessage signedAt now st documentId
    st' :
  signDocument (Some user) signMessage signedAt now st documentId
  = (st', Return ()) →
  ∃ before after,
    getSignatureStatus st.(DocumentState.documents) documentId = Some before
    ∧ getSignatureStatus st'.(DocumentState.documents) documentId = Some after
    ∧ after.(SignatureStatus.signed) = S before.(SignatureStatus.signed)
    ∧ after.(SignatureStatus.total) = before.(SignatureStatus.total).
Proof.
  intros Hout.
  pose proof (signDocument_documents (Some user) signMessage signedAt now st
                documentId) as Hdocs.
  rewrite Hout in Hdocs. cbn [fst snd] in Hdocs.
  destruct Hdocs as [(m & [=] & _)
                    |(u & doc & sig & [= <-] & Hdoc & _ & _ & _ & _ & _ & _
                      & Hst')].
  unfold getSignatureStatus.
  rewrite Hst', getDocument_map, Hdoc by apply recordSignature_id.
  cbn [option_map]. do 2 eexists. split; [done|]. split; [done|].
  apply getDocument_Some in Hdoc as [_ Hid].
  cbn [SignatureStatus.signed SignatureStatus.total].
  rewrite recordSignature_signatures, length_app by done.
  split; [cbn; lia|].
  apply strictEq_true in Hid. unfold recordSignature. rewrite Hid.
  cbn [negb requiredSigners]. by rewrite length_map.
Qed.

End Extras.

(** * The claims on Alice's and Bob's documents *)

Module Examples.
Section Examples.
Local Existing Instances integers reference.
Import Scenario.
Import DocumentContent Document.

(** Scenario A runs as the specification tells it: the document is complete
    with two signatures and verifies. *)
Lemma signedText_verifies :
  map (λ d, (d.(status), List.length d.(signatures)))
      signedText.(DocumentState.documents) = [(complete, 2%nat)]
  ∧ verifyDocument signedText.(DocumentState.documents) docId t2
    = Return {| DocumentVerification.valid := true;
                DocumentVerification.signaturesValid := true;
                DocumentVerification.contentHashValid := true;
                DocumentVerification.allSignersPresent := true;
                DocumentVerification.errors := [];
                DocumentVerification.verifiedAt := t2 |}.
Proof. split; vm_compute; reflexivity. Qed.

(** C1, as stated, fails: the PDF signed by both is renamed in the store, a
    change of [content.data]; [verifyDocument] still finds the document
    valid and its content hash right, and both signatures still report
    [hashMatch]. *)
Lemma renamed_pdf_verifies :
  map (λ d, (d.(status), d.(content).(data)))
      signedPdf.(DocumentState.documents) = [(complete, PdfData contract)]
  ∧ PDFData.filename renamed ≠ PDFData.filename contract
  ∧ verifyDocument
      (replaceData docId (PdfData renamed) signedPdf.(DocumentState.documents))
      docId t2
    = Return {| DocumentVerification.valid := true;
                DocumentVerification.signaturesValid := true;
                DocumentVerification.contentHashValid := true;
                DocumentVerification.allSignersPresent := true;
                DocumentVerification.errors := [];
                DocumentVerification.verifiedAt := t2 |}
  ∧ map (λ sig, (verifySignature sig
                   (withData (PdfData renamed) (firstDocument signedPdf)))
                  .(SignatureVerification.hashMatch))
        (firstDocument signedPdf).(signatures) = [true; true].
Proof.
  split; [vm_compute; reflexivity|].
  split; [intros E; vm_compute in E; discriminate E|].
  split; vm_compute; reflexivity.
Qed.

Lemma verifyDocument_detects_changed_hash_witness :
  ∃ v, verifyDocument
         (replaceData docId (TextData (js "hellp"))
            signedText.(DocumentState.documents)) docId t2 = Return v
       ∧ v.(DocumentVerification.contentHashValid) = false
       ∧ v.(DocumentVerification.valid) = false.
Proof.
  assert (getDocument signedText.(DocumentState.documents) docId
          = Some (firstDocument signedText)) as Hdoc
    by (vm_compute; reflexivity).
  assert (hashDocumentContent
            (withData (TextData (js "hellp")) (firstDocument signedText))
              .(content)
          = Return (js "0x7bc9c272894216442e0ad9df694c50b6a0e12f6f4b3d9267904239c63a7a0807"))
    as Hfresh by (vm_compute; reflexivity).
  assert ((js "0x7bc9c272894216442e0ad9df694c50b6a0e12f6f4b3d9267904239c63a7a0807"
           === (firstDocument signedText).(content).(hash)) = false) as Hne
    by (vm_compute; reflexivity).
  exact (@verifyDocument_detects_changed_hash integers reference _ docId _ _ _ t2
           Hdoc Hfresh Hne).
Defined.


(** C3, as stated, fails: the document names Bob by his display name, which
    authorizes him under the policy of the specification; [signDocument]
    turns him away. *)
Lemma display_name_not_authorized :
  specIsRequiredSigner bob (firstDocument namedByDisplayName) = true
  ∧ signDocument (Some bob) bobWallet t1 t1 namedByDisplayName docId
    = (namedByDisplayName, Throw NotARequiredSigner).
Proof. split; vm_compute; reflexivity. Qed.

(** Bob, named by his email, is let through. *)
Lemma signDocument_required_signer_witness :
  signDocument (Some bob) bobWallet t1 t1 created docId
  = signingAttempt bob bobWallet t1 t1 (firstDocument created) docId created.
Proof.
  assert (getDocument created.(DocumentState.documents) docId
          = Some (firstDocument created)) as Hdoc
    by (vm_compute; reflexivity).
  assert (alreadySigned bob (firstDocument created) = false) as Hnot
    by (vm_compute; reflexivity).
  assert (isRequiredSigner bob (firstDocument created) = true) as Hreq
    by (vm_compute; reflexivity).
  exact (proj1 (@signDocument_required_signer integers reference bob bobWallet t1 t1
                  created docId (firstDocument created) Hdoc Hnot)
               (proj1 (isRequiredSigner_true bob (firstDocument created))
                      Hreq)).
Defined.

(** C4, as stated, fails: Carol is no required signer of the document, which
    holds a signature under her id; [signDocument] answers [AlreadySigned],
    not [NotARequiredSigner]. *)
Lemma already_signed_checked_first :
  specIsRequiredSigner carol
    (strayDocument [newSigner (js "7c1f0a52-alice")]) = false
  ∧ isRequiredSigner carol
      (strayDocument [newSigner (js "7c1f0a52-alice")]) = false
  ∧ signDocument (Some carol) bobWallet t1 t1
      (strayState [newSigner (js "7c1f0a52-alice")]) docId
    = (strayState [newSigner (js "7c1f0a52-alice")], Throw AlreadySigned).
Proof.
  split; [vm_compute; reflexivity|]. split; vm_compute; reflexivity.
Qed.

Lemma signDocument_check_order_witness :
  signDocument (Some alice) aliceWallet t1 t1 created docId
  = (created, Throw AlreadySigned).
Proof.
  assert (getDocument created.(DocumentState.documents) docId
          = Some (firstDocument created)) as Hdoc
    by (vm_compute; reflexivity).
  assert (alreadySigned alice (firstDocument created) = true) as Hsig
    by (vm_compute; reflexivity).
  exact (proj1 (proj2 (proj2 (@signDocument_check_order integers reference aliceWallet
                                t1 t1 created docId)))
               alice (firstDocument created) Hdoc
               (proj1 (alreadySigned_true alice (firstDocument created))
                      Hsig)).
Defined.


(** The ids must not repeat: were a document created under the id of the
    signed text, it would be found first, and Bob could sign it. *)
Lemma same_id_signs_again :
  (signDocument (Some bob) bobWallet t2 t2
     (fold_left step [createUnsigned docId aliceAndBob] signedText) docId).2
  = Return ().
Proof. vm_compute. reflexivity. Qed.


(** C6, as stated, fails: of two keys, [U+FF5E] comes first in the order of
    code points, and the surrogate pair of [U+1F600] first in the output. *)
Lemma keys_sorted_by_code_unit :
  codePointLe fullwidthTilde grinningFace = true
  ∧ codePointLe grinningFace fullwidthTilde = false
  ∧ canonicalizeJSON twoKeys
    = js "{" ++ dquote ++ grinningFace ++ dquote ++ js ":null,"
      ++ dquote ++ fullwidthTilde ++ dquote ++ js ":null}".
Proof.
  split; [vm_compute; reflexivity|]. split; vm_compute; reflexivity.
Qed.

(** Scenario B. *)
Lemma canonicalizeJSON_key_order_independent_witness :
  canonicalizeJSON ab = canonicalizeJSON ba
  ∧ hashDocumentContent {| data := JsonData ab; hash := js "" |}
    = hashDocumentContent {| data := JsonData ba; hash := js "" |}.
Proof.
  refine (let P := @canonicalizeJSON_key_order_independent integers reference ba ab
                     (js "") (js "") eq_refl _ in
          conj (proj1 P) (proj1 (proj2 P))).
  apply (kp_object baProperties baProperties abProperties).
  - repeat constructor.
  - apply perm_swap.
Defined.

(** Bob signs the message Alice has signed: the document with her signature
    and the document with both have the same message. *)
Lemma createDocumentMessage_pure_witness :
  map DocumentSigner.hasSigned (firstDocument created).(requiredSigners)
  ≠ map DocumentSigner.hasSigned (firstDocument signedText).(requiredSigners)
  ∧ createDocumentMessage (firstDocument created)
    = createDocumentMessage (firstDocument signedText).
Proof.
  split; [intros E; vm_compute in E; discriminate E|].
  assert ((firstDocument created).(id) = (firstDocument signedText).(id))
    as Hid by (vm_compute; reflexivity).
  assert (type (firstDocument created).(content)
          = type (firstDocument signedText).(content)) as Htype
    by (vm_compute; reflexivity).
  assert ((firstDocument created).(content).(hash)
          = (firstDocument signedText).(content).(hash)) as Hhash
    by (vm_compute; reflexivity).
  assert ((firstDocument created).(createdAt)
          = (firstDocument signedText).(createdAt)) as Hcreated
    by (vm_compute; reflexivity).
  assert (map DocumentSigner.userId (firstDocument created).(requiredSigners)
          = map DocumentSigner.userId
              (firstDocument signedText).(requiredSigners)) as Hsigners
    by (vm_compute; reflexivity).
  exact (proj1 (@createDocumentMessage_pure integers reference
                  (firstDocument created) (firstDocument signedText)
                  Hid Htype Hhash Hcreated Hsigners)).
Defined.

(** C8, as stated, fails: an object with an [undefined] property is written
    with the token, and hashed. *)
Lemma undefined_is_written :
  canonicalizeJSON (JObject [(js "a", JUndefined)])
  = js "{" ++ dquote ++ js "a" ++ dquote ++ js ":undefined}"
  ∧ hashDocumentContent
      {| data := JsonData (JObject [(js "a", JUndefined)]); hash := js "" |}
    = Return (js "0xed6e88d77977bacd84343048f55b00b8855e7761ace482fd495af08decc920c3").
Proof. split; vm_compute; reflexivity. Qed.

Lemma canonicalizeJSON_writes_undefined_witness :
  includes
    (canonicalizeJSON
       (JArray [JObject [(js "a", JNull); (js "b", JArray [JUndefined])]]))
    (js "undefined").
Proof.
  exact (proj1 (@canonicalizeJSON_writes_undefined integers reference
                  (JArray [JObject [(js "a", JNull);
                                    (js "b", JArray [JUndefined])]])
                  (js "") eq_refl eq_refl)).
Defined.

(** Bob's wallet rejects the request. *)
Lemma signDocument_signing_failed_witness :
  ∃ st', signDocument (Some bob) rejectingWallet t1 t1 created docId
         = (st', Throw SigningFailed)
         ∧ st'.(DocumentState.documents) = created.(DocumentState.documents)
         ∧ getDocument st'.(DocumentState.documents) docId
           = Some (firstDocument created)
         ∧ st'.(DocumentState.currentDocument)
           = created.(DocumentState.currentDocument)
         ∧ st'.(DocumentState.error) = Some SigningFailed
         ∧ st'.(DocumentState.isSigning) = false.
Proof.
  assert (getDocument created.(DocumentState.documents) docId
          = Some (firstDocument created)) as Hdoc
    by (vm_compute; reflexivity).
  assert (alreadySigned bob (firstDocument created) = false) as Hnot
    by (vm_compute; reflexivity).
  assert (isRequiredSigner bob (firstDocument created) = true) as Hreq
    by (vm_compute; reflexivity).
  exact (@signDocument_signing_failed integers reference bob rejectingWallet t1 t1
           created docId (firstDocument created) Hdoc Hnot Hreq eq_refl).
Defined.

(** A stored document that the provider has not built, with a signature and
    no required signer, is not reported complete. *)
Lemma no_signers_not_complete :
  (strayDocument []).(requiredSigners) = []
  ∧ getSignatureStatus [strayDocument []] docId
    = Some {| SignatureStatus.total := 0;
              SignatureStatus.signed := 1;
              SignatureStatus.percentage := 0;
              SignatureStatus.pending := [];
              SignatureStatus.complete := false;
              SignatureStatus.missingSigners := [] |}.
Proof. split; vm_compute; reflexivity. Qed.

(** A document created without required signers is reported complete, at
    [0] percent. *)
Lemma getSignatureStatus_fields_witness :
  ∃ s, getSignatureStatus
         (run [createUnsigned docId []]).(DocumentState.documents) docId
       = Some s
       ∧ s.(SignatureStatus.complete) = true
       ∧ s.(SignatureStatus.percentage) = 0%Z.
Proof.
  assert (getDocument
            (run [createUnsigned docId []]).(DocumentState.documents) docId
          = Some (firstDocument (run [createUnsigned docId []]))) as Hdoc
    by (vm_compute; reflexivity).
  assert ((firstDocument (run [createUnsigned docId []])).(requiredSigners)
          = []) as Hnone
    by (vm_compute; reflexivity).
  destruct (@getSignatureStatus_fields integers reference
              (run [createUnsigned docId []]).(DocumentState.documents) docId
              (firstDocument (run [createUnsigned docId []])) Hdoc)
    as (s & Hs & _ & _ & _ & _ & _ & _ & Hbuilt).
  exact (ex_intro _ s
           (conj Hs (Hbuilt (ex_intro _ [createUnsigned docId []] eq_refl)
                            Hnone))).
Defined.

End Examples.
End Examples.

(** * More of the code on Alice's and Bob's documents *)

Module MoreExamples.
Section MoreExamples.
Local Existing Instances integers reference.
Import Scenario.
Import DocumentContent Document.

Lemma canonicalizeJSON_key_not_escaped_witness :
  canonicalizeJSON
    (JObject [(js "a" ++ dquote ++ js ":" ++ canonicalizeJSON (JNumber 1%Z)
               ++ js "," ++ dquote ++ js "b", JNumber 2%Z)])
  = canonicalizeJSON (JObject [(js "a", JNumber 1%Z); (js "b", JNumber 2%Z)]).
Proof.
  assert (js "a" ≠ js "b") as Hne by (intros E; vm_compute in E; discriminate E).
  exact (proj1 (@canonicalizeJSON_key_not_escaped integers reference
                  (js "a") (js "b") (JNumber 1%Z) (JNumber 2%Z) (js "") (js "")
                  Hne eq_refl)).
Defined.

Lemma createDocumentMessage_signers_joined_witness :
  createDocumentMessage (unsignedFor [js "alice"; js "bob"])
  = createDocumentMessage (unsignedFor [js "alice" ++ js ", " ++ js "bob"]).
Proof.
  exact (@createDocumentMessage_signers_joined integers reference
           (unsignedFor [js "alice"; js "bob"])
           (unsignedFor [js "alice" ++ js ", " ++ js "bob"])
           (js "alice") (js "bob")
           eq_refl eq_refl eq_refl eq_refl eq_refl eq_refl).
Defined.


Lemma verifyDocument_blind_to_canonical_form_witness :
  verifyDocument
    (replaceData docId (PdfData renamed) signedPdf.(DocumentState.documents))
    docId t2
  = verifyDocument signedPdf.(DocumentState.documents) docId t2.
Proof.
  assert (getDocument signedPdf.(DocumentState.documents) docId
          = Some (firstDocument signedPdf)) as Hdoc
    by (vm_compute; reflexivity).
  assert (type (withData (PdfData renamed) (firstDocument signedPdf)).(content)
          = type (firstDocument signedPdf).(content)) as Htype
    by (vm_compute; reflexivity).
  assert (canonicalForm
            (withData (PdfData renamed) (firstDocument signedPdf)).(content)
          = canonicalForm (firstDocument signedPdf).(content)) as Hform
    by (vm_compute; reflexivity).
  exact (@verifyDocument_blind_to_canonical_form integers reference _ docId _
           _ t2 Hdoc Htype Hform).
Defined.

(** The tampered text is found invalid, without an error. *)
Lemma verifyDocument_errors_witness :
  ∃ v, verifyDocument tamperedText docId t2 = Return v
       ∧ v.(DocumentVerification.valid) = false
       ∧ (v.(DocumentVerification.errors) = []
          ↔ v.(DocumentVerification.signaturesValid) = true
            ∧ v.(DocumentVerification.allSignersPresent) = true).
Proof.
  set (v := {| DocumentVerification.valid := false;
               DocumentVerification.signaturesValid := true;
               DocumentVerification.contentHashValid := false;
               DocumentVerification.allSignersPresent := true;
               DocumentVerification.errors := [];
               DocumentVerification.verifiedAt := t2 |}).
  assert (getDocument tamperedText docId
          = Some (withData (TextData (js "hellp")) (firstDocument signedText)))
    as Hdoc by (vm_compute; reflexivity).
  assert (verifyDocument tamperedText docId t2 = Return v) as Hv
    by (vm_compute; reflexivity).
  exact (ex_intro _ v
           (conj Hv (conj eq_refl
              (proj1 (proj2 (@verifyDocument_errors integers reference
                               tamperedText docId t2 _ v Hdoc Hv)))))).
Defined.

Lemma allSignersPresent_iff_complete_witness :
  true = true
  ↔ (firstDocument signedText).(status) = complete
    ∨ (firstDocument signedText).(requiredSigners) = [].
Proof.
  set (v := {| DocumentVerification.valid := true;
               DocumentVerification.signaturesValid := true;
               DocumentVerification.contentHashValid := true;
               DocumentVerification.allSignersPresent := true;
               DocumentVerification.errors := [];
               DocumentVerification.verifiedAt := t2 |}).
  assert (getDocument
            (run [create (TextData (js "hello")) aliceAndBob; bobSigns])
              .(DocumentState.documents) docId
          = Some (firstDocument signedText)) as Hdoc
    by (vm_compute; reflexivity).
  assert (verifyDocument
            (run [create (TextData (js "hello")) aliceAndBob; bobSigns])
              .(DocumentState.documents) docId t2 = Return v) as Hv
    by (vm_compute; reflexivity).
  exact (@allSignersPresent_iff_complete integers reference
           [create (TextData (js "hello")) aliceAndBob; bobSigns] docId t2
           (firstDocument signedText) v Hdoc Hv).
Defined.

(** Bob signs the text Alice created. *)
Lemma signDocument_records_signature_witness :
  ∃ doc docSignature,
    getDocument created.(DocumentState.documents) docId = Some doc
    ∧ bobWallet (createDocumentMessage doc)
      = Some docSignature.(DocumentSignature.signature)
    ∧ docSignature.(DocumentSignature.signer) = bob
    ∧ docSignature.(DocumentSignature.documentHash) = doc.(content).(hash)
    ∧ (∃ doc', getDocument signedText.(DocumentState.documents) docId
               = Some doc'
               ∧ doc'.(signatures) = doc.(signatures) ++ [docSignature]
               ∧ doc'.(updatedAt) = t1
               ∧ doc'.(status) ≠ pending)
    ∧ (∀ d, d.(id) ≠ docId →
            d ∈ created.(DocumentState.documents)
            ↔ d ∈ signedText.(DocumentState.documents)).
Proof.
  assert (signDocument (Some bob) bobWallet t1 t1 created docId
          = (signedText, Return ())) as Hout by (vm_compute; reflexivity).
  exact (@signDocument_records_signature integers reference bob bobWallet t1
           t1 created docId signedText Hout).
Defined.

(** Bob signs a second time. *)
Lemma signDocument_throws_witness :
  (AlreadySigned = NotAuthenticated ∨ AlreadySigned = DocumentNotFound
   ∨ AlreadySigned = AlreadySigned ∨ AlreadySigned = NotARequiredSigner
   ∨ AlreadySigned = SigningFailed)
  ∧ (signDocument (Some bob) bobWallet t2 t2 signedText docId).1
      .(DocumentState.documents) = signedText.(DocumentState.documents)
  ∧ (signDocument (Some bob) bobWallet t2 t2 signedText docId).1
      .(DocumentState.currentDocument)
    = signedText.(DocumentState.currentDocument).
Proof.
  assert ((signDocument (Some bob) bobWallet t2 t2 signedText docId).2
          = Throw AlreadySigned) as Hout by (vm_compute; reflexivity).
  exact (@signDocument_throws integers reference (Some bob) bobWallet t2 t2
           signedText docId AlreadySigned Hout).
Defined.

(** The text Alice created is pending for Bob. *)
Lemma getPendingDocuments_listed_witness :
  ∃ user, Some bob = Some user
          ∧ firstDocument created ∈ created.(DocumentState.documents)
          ∧ firstDocument created
            ∈ getMyDocuments (Some bob) created.(DocumentState.documents)
          ∧ existsb (listedAs user) (firstDocument created).(requiredSigners)
            = true
          ∧ alreadySigned user (firstDocument created) = false.
Proof.
  assert (getPendingDocuments (Some bob) created.(DocumentState.documents)
          = [firstDocument created]) as Hpending by (vm_compute; reflexivity).
  assert (firstDocument created
          ∈ getPendingDocuments (Some bob) created.(DocumentState.documents))
    as Hin by (rewrite Hpending; left).
  exact (@getPendingDocuments_listed integers reference (Some bob)
           created.(DocumentState.documents) (firstDocument created) Hin).
Defined.

(** Once Bob has signed, it is pending for him no more. *)
Lemma signed_not_pending_witness :
  Forall (λ d, d.(id) ≠ docId)
    (getPendingDocuments (Some bob) signedText.(DocumentState.documents)).
Proof.
  assert (signDocument (Some bob) bobWallet t1 t1 created docId
          = (signedText, Return ())) as Hout by (vm_compute; reflexivity).
  apply list.Forall_forall.
  exact (@signed_not_pending integers reference bob bobWallet t1 t1 created
           docId signedText Hout).
Defined.


(** Alice creates the text and signs it at once: the document returned shows
    no signature, the stored one hers. *)
Lemma createDocument_returns_witness :
  ∃ user stored,
    Some alice = Some user
    ∧ unsignedHello.(id) = docId ∧ unsignedHello.(createdBy) = user
    ∧ unsignedHello.(status) = pending ∧ unsignedHello.(signatures) = []
    ∧ unsignedHello.(requiredSigners)
      = map newSigner helloParams.(CreateDocumentParams.requiredSigners)
    ∧ unsignedHello.(content).(data)
      = helloParams.(CreateDocumentParams.contentData)
    ∧ hashDocumentContent unsignedHello.(content)
      = Return unsignedHello.(content).(hash)
    ∧ getDocument created.(DocumentState.documents) docId = Some stored
    ∧ stored.(content) = unsignedHello.(content)
    ∧ (if helloParams.(CreateDocumentParams.signImmediately)
       then signerIds stored = [user.(DocumentUser.userId)]
            ∧ stored.(status) ≠ pending
       else stored = unsignedHello).
Proof.
  assert (createDocument (Some alice) aliceWallet docId t0 t0 t0 t0 emptyState
            helloParams = (created, Return unsignedHello)) as Hout
    by (vm_compute; reflexivity).
  exact (@createDocument_returns integers reference (Some alice) aliceWallet
           docId t0 t0 t0 t0 emptyState helloParams created unsignedHello
           Hout).
Defined.

(** Alice creates a document for Bob alone and asks to sign it at once. *)
Lemma createDocument_signing_fails_witness :
  ∃ st', createDocument (Some alice) aliceWallet docId t0 t0 t0 t0 emptyState
           forBobAlone = (st', Throw NotARequiredSigner)
         ∧ st'.(DocumentState.error) = Some NotARequiredSigner
         ∧ st'.(DocumentState.isLoading) = false.
Proof.
  assert (hashDocumentContent
            {| data := forBobAlone.(CreateDocumentParams.contentData);
               hash := js "" |} = Return helloHash) as Hh
    by (vm_compute; reflexivity).
  assert (alice.(DocumentUser.userId)
          ∉ forBobAlone.(CreateDocumentParams.requiredSigners)) as Hnotin.
  { rewrite list_elem_of_In. intros [E|[]]. vm_compute in E. discriminate E. }
  exact (proj2 (@createDocument_signing_fails integers reference alice
                  aliceWallet docId t0 t0 t0 t0 emptyState forBobAlone
                  helloHash Hh eq_refl) Hnotin).
Defined.

Lemma created_is_mine_witness :
  ∃ stored,
    getDocument created.(DocumentState.documents) docId = Some stored
    ∧ stored ∈ getMyDocuments (Some alice) created.(DocumentState.documents).
Proof.
  assert (createDocument (Some alice) aliceWallet docId t0 t0 t0 t0 emptyState
            helloParams = (created, Return unsignedHello)) as Hout
    by (vm_compute; reflexivity).
  exact (@created_is_mine integers reference alice aliceWallet docId t0 t0 t0
           t0 emptyState helloParams created unsignedHello Hout).
Defined.

(** Bob selects the text and signs it. *)
Lemma selected_document_not_updated_witness :
  ∃ doc doc',
    (signDocument (Some bob) bobWallet t1 t1 (selectDocument docId created)
       docId).1.(DocumentState.currentDocument) = Some doc
    ∧ getDocument created.(DocumentState.documents) docId = Some doc
    ∧ getDocument
        (signDocument (Some bob) bobWallet t1 t1 (selectDocument docId created)
           docId).1.(DocumentState.documents) docId = Some doc'
    ∧ List.length doc'.(signatures) = S (List.length doc.(signatures)).
Proof.
  assert (signDocument (Some bob) bobWallet t1 t1
            (selectDocument docId created) docId
          = ((signDocument (Some bob) bobWallet t1 t1
                (selectDocument docId created) docId).1, Return ())) as Hout
    by (vm_compute; reflexivity).
  exact (@selected_document_not_updated integers reference bob bobWallet t1 t1
           created docId _ Hout).
Defined.

Lemma signDocument_raises_signed_witness :
  ∃ before after,
    getSignatureStatus created.(DocumentState.documents) docId = Some before
    ∧ getSignatureStatus signedText.(DocumentState.documents) docId
      = Some after
    ∧ after.(SignatureStatus.signed) = S before.(SignatureStatus.signed)
    ∧ after.(SignatureStatus.total) = before.(SignatureStatus.total).
Proof.
  assert (signDocument (Some bob) bobWallet t1 t1 created docId
          = (signedText, Return ())) as Hout by (vm_compute; reflexivity).
  exact (@signDocument_raises_signed integers reference bob bobWallet t1 t1
           created docId signedText Hout).
Defined.


End MoreExamples.
End MoreExamples.
